(** * Icarus orchestrator: job lifecycle, admission and sentinel

    A shallow embedding of the scheduler of the Icarus orchestrator
    ([orchestrator/job_queue.py], [orchestrator/main.py],
    [orchestrator/database.py], [orchestrator/docker_manager.py],
    [sentinel/monitor.py]) and the properties of its job lifecycle.

    The program is asynchronous Python.  Every coroutine is embedded as a
    function in a state-and-exception monad over one [World] (database
    tables, Docker daemon, the queue's in-memory tables, the sentinel, the
    clock and the log).  What other tasks and the outside world do while a
    coroutine is suspended is given by an explicit script of events.

    Percentages and thresholds are floats that the program only compares:
    they are rationals here.  The database and the Docker daemon are
    reliable: a request fails only where the object it names is missing,
    or where the script of the environment says so. *)

From stdpp Require Import gmap strings list.
From Stdlib Require Import ZArith QArith DecimalString.

Close Scope Q_scope.
Local Open Scope Z_scope.
Local Open Scope string_scope.

(** ** Python values *)

Module Py.

(** [str(n)] for an [int]. *)
Definition str_int (z : Z) : string := NilZero.string_of_int (Z.to_int z).

(** [needle in hay] for two [str]. *)
Fixpoint contains (needle hay : string) : bool :=
  String.prefix needle hay ||
  match hay with
  | EmptyString => false
  | String _ rest => contains needle rest
  end.

(** Truth value of an [Optional[str]]: [None] and the empty string are false. *)
Definition truthy (s : option string) : bool :=
  match s with
  | Some s => negb (String.eqb s "")
  | None => false
  end.

(** [max(a, b)] on numbers: the first argument unless the second is larger. *)
Definition max (a b : Q) : Q := if Qle_bool b a then a else b.

(** [a >= b]. *)
Definition ge (a b : Q) : bool := Qle_bool b a.

End Py.

(** A decoded JSON value, as the callback endpoint receives it in [data].
    Floats, arrays and objects are kept opaque, with their [str()] text. *)
Inductive Json :=
| JNull
| JBool (b : bool)
| JInt (z : Z)
| JStr (s : string)
| JOther (repr : string).

#[global] Instance Json_eq_dec : EqDecision Json.
Proof. solve_decision. Defined.

(** [str(v)], as an f-string renders it. *)
Definition py_str (v : Json) : string :=
  match v with
  | JNull => "None"
  | JBool true => "True"
  | JBool false => "False"
  | JInt z => Py.str_int z
  | JStr s => s
  | JOther r => r
  end.

(** Exceptions the modelled code raises or lets through. *)
Inductive Exn :=
| NoResultFound
| KeyError (key : string)
| TypeError (msg : string)
| RuntimeError (msg : string)
| TimeoutError (msg : string)
| DockerError (msg : string)
| HTTPException (status_code : Z) (detail : string).

(** [str(e)]. *)
Definition exn_str (e : Exn) : string :=
  match e with
  | NoResultFound => "No row was found when one was required"
  | KeyError k => "'" ++ k ++ "'"
  | TypeError m | RuntimeError m | TimeoutError m | DockerError m => m
  | HTTPException _ d => d
  end.

(** ** orchestrator/database.py *)

Module DB.

Inductive JobStatus :=
| PENDING | BUILDING | CHECKING | AWAITING_APPROVAL
| APPROVED | REJECTED | COMPLETED | FAILED.

#[global] Instance JobStatus_eq_dec : EqDecision JobStatus.
Proof. solve_decision. Defined.

(** A row of table [jobs]; times are microseconds of the clock. *)
Record Job := mkJob {
  job_id : string;
  task : string;
  status : JobStatus;
  project_path : string;
  created_at : Z;
  completed_at : option Z;
  builder_container_id : option string;
  checker_container_id : option string;
  error_message : option string
}.

Definition with_status (s : JobStatus) (j : Job) : Job :=
  mkJob (job_id j) (task j) s (project_path j) (created_at j) (completed_at j)
        (builder_container_id j) (checker_container_id j) (error_message j).

Definition with_error_message (m : option string) (j : Job) : Job :=
  mkJob (job_id j) (task j) (status j) (project_path j) (created_at j) (completed_at j)
        (builder_container_id j) (checker_container_id j) m.

Definition with_completed_at (t : option Z) (j : Job) : Job :=
  mkJob (job_id j) (task j) (status j) (project_path j) (created_at j) t
        (builder_container_id j) (checker_container_id j) (error_message j).

Definition with_builder_container_id (c : option string) (j : Job) : Job :=
  mkJob (job_id j) (task j) (status j) (project_path j) (created_at j) (completed_at j)
        c (checker_container_id j) (error_message j).

Definition with_checker_container_id (c : option string) (j : Job) : Job :=
  mkJob (job_id j) (task j) (status j) (project_path j) (created_at j) (completed_at j)
        (builder_container_id j) c (error_message j).

(** A mapped class of the declarative base: its name and its columns. *)
Record ModelClass := mkModel { cls_name : string; columns : list string }.

Definition Telemetry : ModelClass :=
  mkModel "Telemetry"
    ["id"; "job_id"; "timestamp"; "cpu_percent"; "ram_mb"; "current_tool"; "container_id"].

Definition AuditLog : ModelClass :=
  mkModel "AuditLog" ["id"; "job_id"; "report"; "created_at"].

(** Attributes every mapped class has besides its columns. *)
Definition class_attrs (c : ModelClass) : list string :=
  "__tablename__" :: "metadata" :: "registry" :: columns c.

(** A value given to a column: a JSON value of a payload, or a float the
    program computed. *)
Inductive Value :=
| VJson (v : Json)
| VFloat (q : Q).

(** An instance of a mapped class: the attributes its constructor set. *)
Record Row := mkRow { row_class : string; row_attrs : list (string * Value) }.

(** The constructor the declarative base gives every mapped class (the
    classes of this file define no [__init__]): each keyword must name an
    attribute of the class, otherwise [TypeError]. *)
Fixpoint set_kwargs (c : ModelClass) (kwargs : list (string * Value))
         (acc : list (string * Value)) : Exn + list (string * Value) :=
  match kwargs with
  | [] => inr acc
  | (k, v) :: rest =>
      if bool_decide (k ∈ class_attrs c)
      then set_kwargs c rest (acc ++ [(k, v)])
      else inl (TypeError ("'" ++ k ++ "' is an invalid keyword argument for " ++ cls_name c))
  end.

Definition construct (c : ModelClass) (kwargs : list (string * Value)) : Exn + Row :=
  match set_kwargs c kwargs [] with
  | inl e => inl e
  | inr attrs => inr (mkRow (cls_name c) attrs)
  end.

End DB.

Export DB.

(** ** The Docker daemon behind orchestrator/docker_manager.py *)

Module Docker.

Inductive ContainerStatus :=
| created | running | paused | restarting | removing | exited | dead.

#[global] Instance ContainerStatus_eq_dec : EqDecision ContainerStatus.
Proof. solve_decision. Defined.

(** What [container.stats(stream=False)] returns, as far as it is read. *)
Record Stats := mkStats {
  cpu_total_usage : Z;
  precpu_total_usage : Z;
  system_cpu_usage : Z;
  presystem_cpu_usage : Z;
  memory_usage : Z
}.

Record Container := mkContainer {
  name : string;
  status : ContainerStatus;
  ExitCode : Z;
  mount_source : string;
  mount_read_only : bool;
  stats : Stats
}.

Definition with_status (s : ContainerStatus) (c : Container) : Container :=
  mkContainer (name c) s (ExitCode c) (mount_source c) (mount_read_only c) (stats c).

Definition with_exit (s : ContainerStatus) (code : Z) (c : Container) : Container :=
  mkContainer (name c) s code (mount_source c) (mount_read_only c) (stats c).

Definition no_stats : Stats := mkStats 0 0 0 0 0.

End Docker.


(** ** sentinel/monitor.py: state of the monitor *)

Inductive AlertLevel := GREEN | YELLOW | RED.

#[global] Instance AlertLevel_eq_dec : EqDecision AlertLevel.
Proof. solve_decision. Defined.

(** Fields of [SystemMonitor].  [docker_manager] is an optional reference to
    the one Docker manager; only its presence is a field here. *)
Record SystemMonitor := mkMonitor {
  yellow_threshold : Q;
  red_threshold : Q;
  poll_interval : Z;
  current_alert : AlertLevel;
  docker_manager : bool;
  paused_containers : list string
}.

Definition with_current_alert (a : AlertLevel) (s : SystemMonitor) : SystemMonitor :=
  mkMonitor (yellow_threshold s) (red_threshold s) (poll_interval s) a
            (docker_manager s) (paused_containers s).

Definition with_paused_containers (l : list string) (s : SystemMonitor) : SystemMonitor :=
  mkMonitor (yellow_threshold s) (red_threshold s) (poll_interval s) (current_alert s)
            (docker_manager s) l.

(** What psutil gives at one sampling: measurements, or an exception. *)
Inductive HostSample :=
| Measured (cpu ram : Q)
| PsutilError (msg : string).

(** The two entries of the dict of [get_system_stats] that the program reads. *)
Record SystemStats := mkSystemStats { cpu_percent : Q; ram_percent : Q }.

(** ** The state the coroutines share *)

(** Entry of [JobQueue.job_events]: two [asyncio.Event] and a dict. *)
Record JobEvents := mkJobEvents {
  error : bool;
  complete : bool;
  data : gmap string Json
}.

(** The log lines kept: the ones that tell what was done to jobs,
    containers and volumes. *)
Inductive LogLine :=
| Job_status_updated (job_id : string) (status : JobStatus)
| Created_workspace_volume (volume_name : string)
| Spawned_Builder_container (container_id : string)
| Spawned_Checker_container (container_id : string)
| Stopped_and_removed_container (container_id : string)
| Failed_to_stop_container (container_id : string)
| Paused_container (container_id : string)
| Failed_to_pause_container (container_id : string)
| Resumed_container (container_id : string)
| Failed_to_resume_container (container_id : string)
| Removed_volume (volume_name : string)
| Failed_to_remove_volume (volume_name : string)
| Failed_to_get_system_stats (msg : string)
| YELLOW_ALERT
| RED_ALERT
| Clearing_alert (previous_status : AlertLevel)
| System_under_load (job_id : string)
| Telemetry_collection_error (msg : string)
| Job_execution_failed (msg : string).

#[global] Instance LogLine_eq_dec : EqDecision LogLine.
Proof. solve_decision. Defined.

Record World := mkWorld {
  (* database *)
  jobs : gmap string Job;
  telemetry : list Row;
  audit_logs : list Row;
  (* Docker daemon *)
  containers : gmap string Docker.Container;
  volumes : gset string;
  (* JobQueue *)
  queue : list string;
  active_jobs : gmap string Z;
  job_events : gmap string JobEvents;
  (* the SystemMonitor the queue and the application share *)
  sentinel : option SystemMonitor;
  (* datetime.utcnow(), in microseconds *)
  now : Z;
  log : list LogLine
}.

Definition set_jobs (f : gmap string Job → gmap string Job) (w : World) : World :=
  mkWorld (f (jobs w)) (telemetry w) (audit_logs w) (containers w) (volumes w) (queue w)
          (active_jobs w) (job_events w) (sentinel w) (now w) (log w).

Definition set_telemetry (f : list Row → list Row) (w : World) : World :=
  mkWorld (jobs w) (f (telemetry w)) (audit_logs w) (containers w) (volumes w) (queue w)
          (active_jobs w) (job_events w) (sentinel w) (now w) (log w).

Definition set_audit_logs (f : list Row → list Row) (w : World) : World :=
  mkWorld (jobs w) (telemetry w) (f (audit_logs w)) (containers w) (volumes w) (queue w)
          (active_jobs w) (job_events w) (sentinel w) (now w) (log w).

Definition set_containers
    (f : gmap string Docker.Container → gmap string Docker.Container) (w : World) : World :=
  mkWorld (jobs w) (telemetry w) (audit_logs w) (f (containers w)) (volumes w) (queue w)
          (active_jobs w) (job_events w) (sentinel w) (now w) (log w).

Definition set_volumes (f : gset string → gset string) (w : World) : World :=
  mkWorld (jobs w) (telemetry w) (audit_logs w) (containers w) (f (volumes w)) (queue w)
          (active_jobs w) (job_events w) (sentinel w) (now w) (log w).

Definition set_queue (f : list string → list string) (w : World) : World :=
  mkWorld (jobs w) (telemetry w) (audit_logs w) (containers w) (volumes w) (f (queue w))
          (active_jobs w) (job_events w) (sentinel w) (now w) (log w).

Definition set_active_jobs (f : gmap string Z → gmap string Z) (w : World) : World :=
  mkWorld (jobs w) (telemetry w) (audit_logs w) (containers w) (volumes w) (queue w)
          (f (active_jobs w)) (job_events w) (sentinel w) (now w) (log w).

Definition set_job_events
    (f : gmap string JobEvents → gmap string JobEvents) (w : World) : World :=
  mkWorld (jobs w) (telemetry w) (audit_logs w) (containers w) (volumes w) (queue w)
          (active_jobs w) (f (job_events w)) (sentinel w) (now w) (log w).

Definition set_sentinel (s : option SystemMonitor) (w : World) : World :=
  mkWorld (jobs w) (telemetry w) (audit_logs w) (containers w) (volumes w) (queue w)
          (active_jobs w) (job_events w) s (now w) (log w).

Definition set_now (f : Z → Z) (w : World) : World :=
  mkWorld (jobs w) (telemetry w) (audit_logs w) (containers w) (volumes w) (queue w)
          (active_jobs w) (job_events w) (sentinel w) (f (now w)) (log w).

Definition add_log (l : LogLine) (w : World) : World :=
  mkWorld (jobs w) (telemetry w) (audit_logs w) (containers w) (volumes w) (queue w)
          (active_jobs w) (job_events w) (sentinel w) (now w) (log w ++ [l]).

(** ** The monad of coroutines

    A coroutine run from a world ends with a value, ends with an exception,
    or is still suspended at an [await] when the script of its environment
    is over ([Blocked]).  Changes made before an exception stay, as in
    Python. *)

Inductive Res (A : Type) :=
| Ok (a : A)
| Raise (e : Exn)
| Blocked.

Arguments Ok {A} a.
Arguments Raise {A} e.
Arguments Blocked {A}.

Definition M (A : Type) : Type := World → Res A * World.

Definition ret {A} (a : A) : M A := λ w, (Ok a, w).

Definition bind {A B} (c : M A) (k : A → M B) : M B :=
  λ w, match c w with
       | (Ok a, w') => k a w'
       | (Raise e, w') => (Raise e, w')
       | (Blocked, w') => (Blocked, w')
       end.

Definition raise {A} (e : Exn) : M A := λ w, (Raise e, w).

Definition gets {A} (f : World → A) : M A := λ w, (Ok (f w), w).

Definition modify (f : World → World) : M unit := λ w, (Ok tt, f w).

(** [try: c  except Exception as e: h e]. *)
Definition try_except {A} (c : M A) (h : Exn → M A) : M A :=
  λ w, match c w with
       | (Raise e, w') => h e w'
       | r => r
       end.

(** [try: c  finally: f].  A coroutine still suspended inside [c] has not
    reached [f]. *)
Definition try_finally {A} (c : M A) (f : M unit) : M A :=
  λ w, match c w with
       | (Blocked, w') => (Blocked, w')
       | (r, w') =>
           match f w' with
           | (Ok _, w'') => (r, w'')
           | (Raise e, w'') => (Raise e, w'')
           | (Blocked, w'') => (Blocked, w'')
           end
       end.

(** [if b: c]. *)
Definition when (b : bool) (c : M unit) : M unit := if b then c else ret tt.

Declare Scope coroutine_scope.
Delimit Scope coroutine_scope with M.
Notation "x <- c ;; k" := (bind c (λ x, k))
  (at level 100, c at next level, right associativity) : coroutine_scope.
Notation "c ;; k" := (bind c (λ _, k))
  (at level 100, right associativity) : coroutine_scope.
Local Open Scope coroutine_scope.

Definition utcnow : M Z := gets now.

Definition logger (l : LogLine) : M unit := modify (add_log l).

(** ** orchestrator/docker_manager.py

    The daemon is reliable on what exists: a request on a container or a
    volume it has succeeds, a request on one it has not fails.  Whether a
    creation succeeds, and the id of a new container, are the daemon's
    answer and are parameters. *)

Inductive Spawn :=
| Spawned (container_id : string)
| SpawnError (msg : string).

Definition create_workspace_volume (daemon_error : option string) (job_id : string) : M string :=
  let volume_name := "icarus_workspace_" ++ job_id in
  match daemon_error with
  | None =>
      modify (set_volumes (λ v, {[volume_name]} ∪ v));;
      logger (Created_workspace_volume volume_name);;
      ret volume_name
  | Some msg => raise (DockerError msg)
  end.

Definition spawn_builder (answer : Spawn)
    (job_id task volume_name orchestrator_callback_url : string) : M string :=
  let container_name := "icarus_builder_" ++ job_id in
  match answer with
  | Spawned container_id =>
      modify (set_containers
        (<[container_id :=
             Docker.mkContainer container_name Docker.running 0 volume_name false
                                Docker.no_stats]>));;
      logger (Spawned_Builder_container container_id);;
      ret container_id
  | SpawnError msg => raise (DockerError msg)
  end.

Definition spawn_checker (answer : Spawn)
    (job_id task volume_name orchestrator_callback_url : string) : M string :=
  let container_name := "icarus_checker_" ++ job_id in
  match answer with
  | Spawned container_id =>
      modify (set_containers
        (<[container_id :=
             Docker.mkContainer container_name Docker.running 0 volume_name true
                                Docker.no_stats]>));;
      logger (Spawned_Checker_container container_id);;
      ret container_id
  | SpawnError msg => raise (DockerError msg)
  end.

(** Every exception is caught and logged: the method never raises. *)
Definition pause_container (container_id : string) : M unit :=
  c <- gets (λ w, containers w !! container_id);;
  match c with
  | Some c =>
      if decide (Docker.status c = Docker.running)
      then modify (set_containers (<[container_id := Docker.with_status Docker.paused c]>));;
           logger (Paused_container container_id)
      else logger (Failed_to_pause_container container_id)
  | None => logger (Failed_to_pause_container container_id)
  end.

(** Stop and remove; every exception is caught and logged. *)
Definition stop_container (container_id : string) : M unit :=
  c <- gets (λ w, containers w !! container_id);;
  match c with
  | Some _ =>
      modify (set_containers (delete container_id));;
      logger (Stopped_and_removed_container container_id)
  | None => logger (Failed_to_stop_container container_id)
  end.

(** Remove a volume; every exception is caught and logged. *)
Definition cleanup_volume (volume_name : string) : M unit :=
  present <- gets (λ w, bool_decide (volume_name ∈ volumes w));;
  if present
  then modify (set_volumes (λ v, v ∖ {[volume_name]}));;
       logger (Removed_volume volume_name)
  else logger (Failed_to_remove_volume volume_name).

(** ** sentinel/monitor.py *)

Definition get_system_stats (h : HostSample) : M SystemStats :=
  match h with
  | Measured cpu ram => ret (mkSystemStats cpu ram)
  | PsutilError msg =>
      logger (Failed_to_get_system_stats msg);;
      (* Return safe defaults *)
      ret (mkSystemStats 0%Q 0%Q)
  end.

Definition _trigger_yellow_alert (stats : SystemStats) : M unit :=
  logger YELLOW_ALERT.

(** [client.containers.list(filters={"name": "icarus_"})]: the running
    containers whose name has the given part. *)
Definition containers_list (name_part : string) : M (list (string * Docker.Container)) :=
  gets (λ w, filter (λ p, Docker.status p.2 = Docker.running
                          ∧ Py.contains name_part (Docker.name p.2) = true)
                    (map_to_list (containers w))).

Fixpoint pause_listed (l : list (string * Docker.Container)) (paused_containers : list string)
    : M (list string) :=
  match l with
  | [] => ret paused_containers
  | (container_id, container) :: rest =>
      if decide (Docker.status container = Docker.running)
      then pause_container container_id;;
           pause_listed rest (paused_containers ++ [container_id])
      else pause_listed rest paused_containers
  end.

Definition _trigger_red_alert (self : SystemMonitor) (stats : SystemStats) : M SystemMonitor :=
  logger RED_ALERT;;
  if docker_manager self
  then l <- containers_list "icarus_";;
       p <- pause_listed l (paused_containers self);;
       ret (with_paused_containers p self)
  else ret self.

Definition resume_one (container_id : string) : M unit :=
  c <- gets (λ w, containers w !! container_id);;
  match c with
  | Some c =>
      if decide (Docker.status c = Docker.paused)
      then modify (set_containers (<[container_id := Docker.with_status Docker.running c]>));;
           logger (Resumed_container container_id)
      else ret tt
  | None => logger (Failed_to_resume_container container_id)
  end.

Fixpoint resume_all (l : list string) : M unit :=
  match l with
  | [] => ret tt
  | container_id :: rest => resume_one container_id;; resume_all rest
  end.

Definition _clear_alerts (self : SystemMonitor) : M SystemMonitor :=
  logger (Clearing_alert (current_alert self));;
  if bool_decide (current_alert self = RED)
     && negb (bool_decide (paused_containers self = []))
     && docker_manager self
  then resume_all (paused_containers self);;
       ret (with_paused_containers [] self)
  else ret self.

Definition _check_resources (h : HostSample) (self : SystemMonitor) : M SystemMonitor :=
  stats <- get_system_stats h;;
  let max_usage := Py.max (cpu_percent stats) (ram_percent stats) in
  if Py.ge max_usage (red_threshold self) then
    if negb (bool_decide (current_alert self = RED))
    then self <- _trigger_red_alert self stats;;
         ret (with_current_alert RED self)
    else ret self
  else if Py.ge max_usage (yellow_threshold self) then
    if bool_decide (current_alert self = GREEN)
    then _trigger_yellow_alert stats;;
         ret (with_current_alert YELLOW self)
    else ret self
  else
    if negb (bool_decide (current_alert self = GREEN))
    then self <- _clear_alerts self;;
         ret (with_current_alert GREEN self)
    else ret self.

(** One turn of [_monitor_loop] on the monitor the application holds. *)
Definition _monitor_loop (h : HostSample) : M unit :=
  s <- gets sentinel;;
  match s with
  | Some self =>
      self <- _check_resources h self;;
      modify (set_sentinel (Some self))
  | None => ret tt
  end.

(** ** orchestrator/main.py: the callback endpoint *)

(** [session.add(row); await session.commit()] on the two log tables. *)
Definition add_telemetry (r : Row) : M unit := modify (set_telemetry (λ t, (t ++ [r])%list)).
Definition add_audit_log (r : Row) : M unit := modify (set_audit_logs (λ t, (t ++ [r])%list)).

Definition new (c : ModelClass) (kwargs : list (string * Value)) : M Row :=
  match construct c kwargs with
  | inl e => raise e
  | inr r => ret r
  end.

(** [data.get(k, default)]. *)
Definition dict_get (d : gmap string Json) (k : string) (default : Json) : Json :=
  match d !! k with
  | Some v => v
  | None => default
  end.

(** [data.get(k, 0.0)]. *)
Definition dict_get_float (d : gmap string Json) (k : string) (default : Q) : Value :=
  match d !! k with
  | Some v => VJson v
  | None => VFloat default
  end.

(** [k in d]. *)
Definition dict_has (d : gmap string Json) (k : string) : bool :=
  bool_decide (is_Some (d !! k)).

Definition set_error_signal (job_id : string) (error_msg : Json) : M unit :=
  modify (set_job_events (λ evs,
    match evs !! job_id with
    | Some ev => <[job_id := mkJobEvents true (complete ev) (<["error" := error_msg]> (data ev))]> evs
    | None => evs
    end)).

Definition set_complete_signal (job_id : string) : M unit :=
  modify (set_job_events (λ evs,
    match evs !! job_id with
    | Some ev => <[job_id := mkJobEvents (error ev) true (data ev)]> evs
    | None => evs
    end)).

Definition agent_callback (job_id : string) (data : gmap string Json) : M string :=
  try_except
    (when (dict_has data "current_tool")
       (telemetry <- new Telemetry
          [("job_id", VJson (JStr job_id));
           ("cpu_usage", dict_get_float data "cpu_usage" 0%Q);
           ("ram_usage_mb", dict_get_float data "ram_usage_mb" 0%Q);
           ("current_tool", VJson (dict_get data "current_tool" JNull))];;
        add_telemetry telemetry);;
     when (dict_has data "audit_report")
       (audit_log <- new AuditLog
          [("job_id", VJson (JStr job_id));
           ("audit_report", VJson (dict_get data "audit_report" JNull))];;
        add_audit_log audit_log);;
     (if bool_decide (data !! "status" = Some (JStr "error")) then
        let error_msg := dict_get data "error" (JStr "Unknown error") in
        set_error_signal job_id error_msg
      else if bool_decide (data !! "status" = Some (JStr "completed")) then
        set_complete_signal job_id
      else ret tt);;
     ret "acknowledged")
    (λ e, raise (HTTPException 500 "Failed to process callback")).

(** The status line of the HTTP response to a handler's outcome. *)
Definition http_status {A} (r : Res A) : Z :=
  match r with
  | Ok _ => 200
  | Raise (HTTPException code _) => code
  | Raise _ => 500
  | Blocked => 0
  end.

(** ** orchestrator/job_queue.py *)

Definition max_concurrent : nat := 3.

(** [await self.queue.put(job_id)]. *)
Definition queue_put (job_id : string) : M unit :=
  modify (set_queue (λ q, (q ++ [job_id])%list)).

(** [select(Job).where(Job.job_id == job_id)] then [scalar_one()]. *)
Definition scalar_one (job_id : string) : M Job :=
  j <- gets (λ w, jobs w !! job_id);;
  match j with
  | Some job => ret job
  | None => raise NoResultFound
  end.

(** Write a loaded row back: [await session.commit()]. *)
Definition commit (job_id : string) (job : Job) : M unit :=
  modify (set_jobs (<[job_id := job]>)).

(** [uuid] is the identifier [uuid.uuid4()] draws. *)
Definition submit_job (uuid : string) (task project_path : string) : M string :=
  let job_id := uuid in
  t <- utcnow;;
  commit job_id (mkJob job_id task PENDING project_path t None None None None);;
  queue_put job_id;;
  ret job_id.

Definition is_terminal (status : JobStatus) : bool :=
  bool_decide (status ∈ [COMPLETED; FAILED; REJECTED]).

Definition _update_job_status (job_id : string) (status : JobStatus)
    (error_message : option string) : M unit :=
  job <- scalar_one job_id;;
  let job := DB.with_status status job in
  let job := if Py.truthy error_message then with_error_message error_message job else job in
  t <- utcnow;;
  let job := if is_terminal status then with_completed_at (Some t) job else job in
  commit job_id job;;
  logger (Job_status_updated job_id status).

(** What one turn of the admission loop did with the id it took. *)
Inductive Admission :=
| Dispatched (job_id : string)
| Requeued (job_id : string) (sleep : Z).

(** One turn of the loop of [_process_queue].  [h] is what psutil gives if
    the turn samples the host. *)
Definition _process_queue (h : HostSample) : M Admission :=
  q <- gets queue;;
  match q with
  | [] => λ w, (Blocked, w)
  | job_id :: rest =>
      modify (set_queue (λ _, rest));;
      n <- gets (λ w, size (active_jobs w));;
      if (max_concurrent <=? n)%nat then
        queue_put job_id;;
        ret (Requeued job_id 5)
      else
        s <- gets sentinel;;
        loaded <- match s with
                  | Some _ =>
                      stats <- get_system_stats h;;
                      let max_usage := Py.max (cpu_percent stats) (ram_percent stats) in
                      ret (Py.ge max_usage 80%Q)
                  | None => ret false
                  end;;
        if loaded then
          logger (System_under_load job_id);;
          queue_put job_id;;
          ret (Requeued job_id 10)
        else
          t <- utcnow;;
          modify (set_active_jobs (<[job_id := t]>));;
          ret (Dispatched job_id)
  end.

(** *** What happens while a supervisor is suspended

    A supervisor is suspended at each [await]; in the meantime time
    passes, containers end, agents call back, and the other tasks of the
    application take their turns.  A script lists these events in the
    order in which they happen. *)

Inductive EnvEvent :=
(* time passes *)
| Elapse (microseconds : N)
(* the process of a container ends: status [exited] *)
| ContainerExits (container_id : string) (exit_code : Z)
(* the daemon gives a container up: status [dead] *)
| ContainerDies (container_id : string) (exit_code : Z)
(* somebody else removes a container *)
| ContainerRemoved (container_id : string)
(* the application handles a POST on /jobs/{job_id}/callback *)
| Callback (job_id : string) (data : gmap string Json)
(* a sampler task takes one turn of its loop *)
| Sampler (job_id container_id : string)
(* the sentinel task takes one turn of its loop *)
| Monitor (h : HostSample)
(* the task that waits for the container of the stage takes one turn *)
| Poll.

Inductive LoopStep := Continue | Break.

Definition container_ends (container_id : string) (s : Docker.ContainerStatus) (code : Z)
    : M unit :=
  modify (set_containers (λ cs,
    match cs !! container_id with
    | Some c =>
        if bool_decide (Docker.status c ∈ [Docker.exited; Docker.dead]) then cs
        else <[container_id := Docker.with_exit s code c]> cs
    | None => cs
    end)).

(** One turn of the loop of [_collect_telemetry]. *)
Definition _collect_telemetry (job_id container_id : string) : M LoopStep :=
  try_except
    (c <- gets (λ w, containers w !! container_id);;
     match c with
     | None => ret Break
     | Some container =>
         if negb (bool_decide (Docker.status container = Docker.running)) then ret Break
         else
           let stats := Docker.stats container in
           let cpu_delta :=
             Docker.cpu_total_usage stats - Docker.precpu_total_usage stats in
           let system_delta :=
             Docker.system_cpu_usage stats - Docker.presystem_cpu_usage stats in
           let cpu_percent :=
             if (0 <? system_delta)%Z
             then (inject_Z cpu_delta / inject_Z system_delta * 100)%Q
             else 0%Q in
           let mem_usage_mb :=
             (inject_Z (Docker.memory_usage stats) / inject_Z (1024 * 1024))%Q in
           telemetry <- new Telemetry
             [("job_id", VJson (JStr job_id));
              ("cpu_usage", VFloat cpu_percent);
              ("ram_usage_mb", VFloat mem_usage_mb);
              ("container_id", VJson (JStr container_id))];;
           add_telemetry telemetry;;
           ret Continue
     end)
    (λ e, logger (Telemetry_collection_error (exn_str e));; ret Break).

(** The effect of an event on the world.  [Poll] is a turn of the task
    that waits for the container and is run by the wait itself. *)
Definition happens (e : EnvEvent) : M unit :=
  match e with
  | Elapse us => modify (set_now (λ t, t + Z.of_N us))
  | ContainerExits container_id code => container_ends container_id Docker.exited code
  | ContainerDies container_id code => container_ends container_id Docker.dead code
  | ContainerRemoved container_id => modify (set_containers (delete container_id))
  | Callback job_id data => try_except (agent_callback job_id data;; ret tt) (λ _, ret tt)
  | Sampler job_id container_id => _collect_telemetry job_id container_id;; ret tt
  | Monitor h => _monitor_loop h
  | Poll => ret tt
  end.

Fixpoint happen (script : list EnvEvent) : M unit :=
  match script with
  | [] => ret tt
  | e :: rest => happens e;; happen rest
  end.

(** One turn of the loop of [_wait_for_container]: the exit code, or
    [None] before [await asyncio.sleep(2)]. *)
Definition _wait_for_container (container_id : string) (start_time timeout : Z)
    : M (option Z) :=
  c <- gets (λ w, containers w !! container_id);;
  match c with
  | None => raise (RuntimeError ("Container " ++ container_id ++ " was removed externally"))
  | Some container =>
      if bool_decide (Docker.status container ∈ [Docker.exited; Docker.dead])
      then ret (Some (Docker.ExitCode container))
      else
        t <- utcnow;;
        let elapsed := t - start_time in
        if (timeout * 1000000 <? elapsed)%Z then
          stop_container container_id;;
          raise (TimeoutError ("Container " ++ container_id ++ " exceeded "
                               ++ Py.str_int timeout ++ "s timeout"))
        else ret None
  end.

(** Lines 324-335: the supervisor acts on the set [done] that
    [asyncio.wait] returned; [wait_task] is the result of the container
    waiter when it is in [done]. *)
Definition act_on_done (job_id : string) (error_event_task complete_event_task : bool)
    (wait_task : option (Exn + Z)) : M Z :=
  if error_event_task then
    ev <- gets (λ w, job_events w !! job_id);;
    match ev with
    | Some ev =>
        let error_msg := dict_get (data ev) "error" (JStr "Agent reported error") in
        raise (RuntimeError ("Agent error: " ++ py_str error_msg))
    | None => raise (KeyError job_id)
    end
  else if complete_event_task then ret 0
  else
    match wait_task with
    | Some (inr exit_code) => ret exit_code
    | Some (inl e) => raise e
    | None => λ w, (Blocked, w)
    end.

(** [asyncio.wait(..., return_when=FIRST_COMPLETED)] and what follows: the
    events of the script happen one after the other until a waiter is
    done; the waiters not done are cancelled, so later turns of [Poll] do
    nothing.  Returns the exit code and what is left of the script. *)
Fixpoint first_completed (job_id container_id : string) (start_time timeout : Z)
    (script : list EnvEvent) : M (Z * list EnvEvent) :=
  ev <- gets (λ w, job_events w !! job_id);;
  let error_event_task := from_option error false ev in
  let complete_event_task := from_option complete false ev in
  if error_event_task || complete_event_task then
    code <- act_on_done job_id error_event_task complete_event_task None;;
    ret (code, script)
  else
    match script with
    | [] => λ w, (Blocked, w)
    | Poll :: rest =>
        λ w, match _wait_for_container container_id start_time timeout w with
             | (Ok None, w') => first_completed job_id container_id start_time timeout rest w'
             | (Ok (Some exit_code), w') =>
                 (code <- act_on_done job_id false false (Some (inr exit_code));;
                  ret (code, rest)) w'
             | (Raise e, w') =>
                 (code <- act_on_done job_id false false (Some (inl e));;
                  ret (code, rest)) w'
             | (Blocked, w') => (Blocked, w')
             end
    | e :: rest =>
        happens e;;
        first_completed job_id container_id start_time timeout rest
    end.

Definition _wait_for_container_with_events (job_id container_id : string)
    (script : list EnvEvent) : M (Z * list EnvEvent) :=
  let timeout := 600 in
  ev <- gets (λ w, job_events w !! job_id);;
  match ev with
  | None => raise (KeyError job_id)
  | Some _ =>
      start_time <- utcnow;;
      first_completed job_id container_id start_time timeout script
  end.

(** What the daemon answers and what happens around one job while its
    supervisor runs: [builder_script] from the moment the supervisor waits
    on the Builder until it spawns the Checker, [checker_script] from the
    moment it waits on the Checker until it leaves. *)
Record JobEnv := mkJobEnv {
  volume_error : option string;
  builder_answer : Spawn;
  builder_script : list EnvEvent;
  checker_answer : Spawn;
  checker_script : list EnvEvent
}.

(** STEP 7 and STEP 8 of [_execute_job]. *)
Definition _execute_job_step7 (env : JobEnv) (job_id checker_container : string) : M unit :=
  (* STEP 7: Wait for Checker *)
  r <- _wait_for_container_with_events job_id checker_container (checker_script env);;
  happen r.2;;
  (* STEP 8: Set status to awaiting approval *)
  _update_job_status job_id AWAITING_APPROVAL None.

(** STEP 6 of [_execute_job], and what follows it. *)
Definition _execute_job_step6 (env : JobEnv) (job_id task volume_name callback_url : string)
    : M unit :=
  (* STEP 6: Spawn Checker agent *)
  _update_job_status job_id CHECKING None;;
  checker_container <- spawn_checker (checker_answer env) job_id task volume_name
                                     callback_url;;
  job <- scalar_one job_id;;
  commit job_id (with_checker_container_id (Some checker_container) job);;
  _execute_job_step7 env job_id checker_container.

(** STEP 4 of [_execute_job] and the check of the Builder's exit code. *)
Definition _execute_job_step4 (env : JobEnv)
    (job_id task volume_name callback_url builder_container : string) : M unit :=
  (* STEP 4: Wait for Builder with event monitoring *)
  r <- _wait_for_container_with_events job_id builder_container (builder_script env);;
  let builder_exit_code := r.1 in
  happen r.2;;
  (* Check Builder exit code *)
  if negb (builder_exit_code =? 0)%Z then
    let error_msg :=
      "Builder exited with non-zero code: " ++ Py.str_int builder_exit_code in
    _update_job_status job_id FAILED (Some error_msg)
    (* Don't proceed to Checker *)
  else
    _execute_job_step6 env job_id task volume_name callback_url.

(** The [try] block of [_execute_job].  The sampler task of a stage is a
    [Sampler] event of the scripts; to cancel it changes nothing in the
    world.  A failure of the Discord notification is caught and logged. *)
Definition _execute_job_try (env : JobEnv) (job_id : string) : M unit :=
  job <- scalar_one job_id;;
  let task := DB.task job in
  (* STEP 1: Create workspace volume *)
  volume_name <- create_workspace_volume (volume_error env) job_id;;
  (* STEP 2: Spawn Builder agent *)
  _update_job_status job_id BUILDING None;;
  let callback_url := "http://host.docker.internal:8000/jobs/" ++ job_id ++ "/callback" in
  builder_container <- spawn_builder (builder_answer env) job_id task volume_name
                                     callback_url;;
  job <- scalar_one job_id;;
  commit job_id (with_builder_container_id (Some builder_container) job);;
  _execute_job_step4 env job_id task volume_name callback_url builder_container.

(** The [except Exception] clause. *)
Definition _execute_job_except (job_id : string) (e : Exn) : M unit :=
  logger (Job_execution_failed (exn_str e));;
  _update_job_status job_id FAILED (Some (exn_str e)).

(** The [finally] clause. *)
Definition _execute_job_finally (job_id : string) : M unit :=
  modify (set_active_jobs (delete job_id));;
  modify (set_job_events (delete job_id)).

Definition _execute_job (env : JobEnv) (job_id : string) : M unit :=
  modify (set_job_events (<[job_id := mkJobEvents false false ∅]>));;
  try_finally
    (try_except (_execute_job_try env job_id) (_execute_job_except job_id))
    (_execute_job_finally job_id).

(** [if container_id: stop_container(container_id)]. *)
Definition stop_if_set (container_id : option string) : M unit :=
  match container_id with
  | Some container_id =>
      if Py.truthy (Some container_id) then stop_container container_id else ret tt
  | None => ret tt
  end.

Definition approve_job (job_id : string) : M unit :=
  _update_job_status job_id APPROVED None;;
  (* Cleanup resources *)
  job <- scalar_one job_id;;
  stop_if_set (builder_container_id job);;
  stop_if_set (checker_container_id job);;
  cleanup_volume ("icarus_workspace_" ++ job_id);;
  _update_job_status job_id COMPLETED None.

Definition reject_job (job_id : string) (comment : option string) : M unit :=
  _update_job_status job_id REJECTED comment;;
  job <- scalar_one job_id;;
  stop_if_set (builder_container_id job);;
  stop_if_set (checker_container_id job);;
  cleanup_volume ("icarus_workspace_" ++ job_id).

(** ** orchestrator/main.py: the approval endpoint *)

Module Main.

Definition approve_job (job_id : string) (approved : bool) (comment : option string)
    : M string :=
  try_except
    (if approved
     then approve_job job_id;; ret "approved"
     else reject_job job_id comment;; ret "rejected")
    (λ e, raise (HTTPException 500 (exn_str e))).

End Main.

(** * Observations, runs and the vocabulary of the proofs *)

Definition empty_world : World :=
  mkWorld ∅ [] [] ∅ ∅ [] ∅ ∅ None 0 [].

(** The statuses written for a job, in order, as the log tells them. *)
Fixpoint status_trace (job_id : string) (l : list LogLine) : list JobStatus :=
  match l with
  | [] => []
  | Job_status_updated j s :: rest =>
      if bool_decide (j = job_id) then s :: status_trace job_id rest
      else status_trace job_id rest
  | _ :: rest => status_trace job_id rest
  end.

Definition job_status (job_id : string) (w : World) : option JobStatus :=
  DB.status <$> jobs w !! job_id.

Definition job_error_message (job_id : string) (w : World) : option string :=
  jobs w !! job_id ≫= error_message.

(** A coroutine leaves an observation of the world unchanged, however it
    ends. *)
Definition unchanged {A B} (f : World → B) (c : M A) : Prop :=
  ∀ w, f (c w).2 = f w.

(** The log lines that the events around a supervisor write. *)
Definition env_line (l : LogLine) : bool :=
  match l with
  | Stopped_and_removed_container _ | Failed_to_stop_container _
  | Paused_container _ | Failed_to_pause_container _
  | Resumed_container _ | Failed_to_resume_container _
  | Failed_to_get_system_stats _ | YELLOW_ALERT | RED_ALERT | Clearing_alert _
  | Telemetry_collection_error _ => true
  | _ => false
  end.

(** An observation that does not look at what the environment of a
    supervisor touches: containers, signals, the clock, the monitor, and
    the log lines of [env_line]. *)
Definition env_frame {B} (f : World → B) : Prop :=
  (∀ g w, f (set_containers g w) = f w)
  ∧ (∀ l w, env_line l = true → f (add_log l w) = f w)
  ∧ (∀ g w, f (set_job_events g w) = f w)
  ∧ (∀ g w, f (set_now g w) = f w)
  ∧ (∀ s w, f (set_sentinel s w) = f w).

(** Everything the application does to the world: the calls of its
    endpoints, the turns of its loops, the supervision of a job, and the
    events of the world around it. *)
Inductive Operation :=
| Submit (uuid task project_path : string)
| Admit (h : HostSample)
| Execute (env : JobEnv) (job_id : string)
| Approval (job_id : string) (approved : bool) (comment : option string)
| Event (e : EnvEvent).

Definition operate (op : Operation) (w : World) : World :=
  match op with
  | Submit uuid task project_path => (submit_job uuid task project_path w).2
  | Admit h => (_process_queue h w).2
  | Execute env job_id => (_execute_job env job_id w).2
  | Approval job_id approved comment => (Main.approve_job job_id approved comment w).2
  | Event e => (happens e w).2
  end.

Definition operate_all (ops : list Operation) (w : World) : World :=
  foldl (λ w op, operate op w) w ops.

(** ** Worlds and runs used below *)

(** The monitor of the application with its default thresholds. *)
Definition default_monitor : SystemMonitor :=
  mkMonitor 80%Q 90%Q 5 GREEN true [].

(** A fresh application with its sentinel, and job J1 submitted. *)
Definition world_J1 : World :=
  (submit_job "J1" "write hello" "/project" (set_sentinel (Some default_monitor) empty_world)).2.

(** J1 admitted. *)
Definition world_J1_admitted : World := (_process_queue (Measured 10%Q 10%Q) world_J1).2.

(** The sentinel has seen a load of 95 % at its last poll and is RED; J1 is
    queued. *)
Definition world_J1_red : World := (_monitor_loop (Measured 95%Q 40%Q) world_J1).2.

(** A monitor configured with a yellow threshold of 70 %, after a poll at
    75 %. *)
Definition world_J1_yellow70 : World :=
  (_monitor_loop (Measured 75%Q 10%Q)
     (set_sentinel (Some (mkMonitor 70%Q 90%Q 5 GREEN true [])) world_J1)).2.

(** A running Builder, paused by the sentinel at a poll that saw 95 %. *)
Definition world_paused : World :=
  (_monitor_loop (Measured 95%Q 40%Q)
     (spawn_builder (Spawned "b1") "J1" "write hello" "icarus_workspace_J1" ""
        world_J1_admitted).2).2.

(** What [_clear_alerts] does to one container of the daemon when it
    resumes the containers of [l]. *)
Definition resumed (l : list string) (cs : gmap string Docker.Container) (container_id : string)
    : option Docker.Container :=
  match cs !! container_id with
  | Some c =>
      if bool_decide (container_id ∈ l) && bool_decide (Docker.status c = Docker.paused)
      then Some (Docker.with_status Docker.running c)
      else Some c
  | None => None
  end.

(** The monitor of [world_paused]: RED, remembering the Builder it paused. *)
Definition monitor_paused : SystemMonitor := mkMonitor 80%Q 90%Q 5 RED true ["b1"].

(** Builder and Checker both exit with code 0 after two seconds. *)
Definition env_happy : JobEnv :=
  mkJobEnv None
    (Spawned "b1") [Elapse 2000000; Poll; ContainerExits "b1" 0; Poll]
    (Spawned "c1") [Elapse 2000000; Poll; ContainerExits "c1" 0; Poll].

(** J1 after its supervisor has returned: awaiting approval. *)
Definition world_J1_awaiting : World := (_execute_job env_happy "J1" world_J1_admitted).2.

(** J1 approved, and a minute later. *)
Definition world_J1_completed : World :=
  (happens (Elapse 60000000) (approve_job "J1" world_J1_awaiting).2).2.

(** What [_update_job_status] writes in the row. *)
Definition updated (status : JobStatus) (error_message : option string) (t : Z) (job : Job)
    : Job :=
  let job := DB.with_status status job in
  let job := if Py.truthy error_message then with_error_message error_message job else job in
  if is_terminal status then with_completed_at (Some t) job else job.


(** J1 when its Builder exits with code 2. *)
Definition env_builder_exit_2 : JobEnv :=
  mkJobEnv None (Spawned "b1") [Elapse 2000000; Poll; ContainerExits "b1" 2; Poll]
           (Spawned "c1") [].

Definition world_J1_failed : World :=
  (_execute_job env_builder_exit_2 "J1" world_J1_admitted).2.

(** How a coroutine ended. *)
Inductive Kind := KOk | KRaise | KBlocked.

Definition kind_of {A} (r : Res A) : Kind :=
  match r with
  | Ok _ => KOk
  | Raise _ => KRaise
  | Blocked => KBlocked
  end.

(** Run from a world whose log tells the statuses [pre] written for the
    job since [w0], the coroutine ends with statuses that [S] allows for
    the way it ended. *)
Definition traces {A} (job_id : string) (w0 : World) (S : Kind → list JobStatus → bool)
    (pre : list JobStatus) (c : M A) : Prop :=
  ∀ w, status_trace job_id (log w) = (status_trace job_id (log w0) ++ pre)%list →
       ∃ p, status_trace job_id (log (c w).2) = (status_trace job_id (log w0) ++ p)%list
            ∧ S (kind_of (c w).1) p = true.

(** The statuses the [try] block of a supervisor may have written, by the
    way it ended. *)
Definition try_block_traces (k : Kind) (p : list JobStatus) : bool :=
  match k with
  | KOk => bool_decide (p ∈ [[BUILDING; FAILED]; [BUILDING; CHECKING; AWAITING_APPROVAL]])
  | KRaise | KBlocked => bool_decide (p ∈ [[]; [BUILDING]; [BUILDING; CHECKING]])
  end.

(** The statuses a supervisor may write for its job, from first to last. *)
Definition supervisor_traces : list (list JobStatus) :=
  [ [];
    [FAILED];
    [BUILDING];
    [BUILDING; FAILED];
    [BUILDING; CHECKING];
    [BUILDING; CHECKING; FAILED];
    [BUILDING; CHECKING; AWAITING_APPROVAL] ].

(** The state machine of the specification: the permitted edges. *)
Definition permitted_edge (a b : JobStatus) : bool :=
  match a, b with
  | PENDING, BUILDING
  | BUILDING, CHECKING
  | CHECKING, AWAITING_APPROVAL
  | AWAITING_APPROVAL, APPROVED
  | APPROVED, COMPLETED
  | BUILDING, FAILED
  | CHECKING, FAILED
  | AWAITING_APPROVAL, REJECTED => true
  | _, _ => false
  end.

(** The edges a supervisor takes: the permitted ones, and [failed] from
    [pending] when the job fails before its Builder is spawned. *)
Definition supervisor_edge (a b : JobStatus) : bool :=
  permitted_edge a b || bool_decide (a = PENDING ∧ b = FAILED).

(** A trace of statuses written one after the other from status [a] takes
    only edges of [edge]. *)
Fixpoint follows (edge : JobStatus → JobStatus → bool) (a : JobStatus) (p : list JobStatus)
    : bool :=
  match p with
  | [] => true
  | b :: rest => edge a b && follows edge b rest
  end.

(** The container a Builder is spawned as. *)
Definition builder_of (job_id : string) : Docker.Container :=
  Docker.mkContainer ("icarus_builder_" ++ job_id) Docker.running 0
                     ("icarus_workspace_" ++ job_id) false Docker.no_stats.

(** The world of a job when its supervisor starts to wait on its Builder
    [container_id], for a job that had row [job] in world [w]. *)
Definition builder_started (job_id container_id : string) (job : Job) (w : World) : World :=
  set_jobs (<[job_id := with_builder_container_id (Some container_id)
                          (updated BUILDING None (now w) job)]>)
    (add_log (Spawned_Builder_container container_id)
       (set_containers (<[container_id := builder_of job_id]>)
          (add_log (Job_status_updated job_id BUILDING)
             (add_log (Created_workspace_volume ("icarus_workspace_" ++ job_id))
                (set_volumes (λ v, {["icarus_workspace_" ++ job_id]} ∪ v) w))))).

(** The URL a job's agents call back. *)
Definition callback_url_of (job_id : string) : string :=
  "http://host.docker.internal:8000/jobs/" ++ job_id ++ "/callback".

(** A payload that signals an error with a text and carries nothing else
    the endpoint stores. *)
Definition error_payload (text : string) : gmap string Json :=
  {["status" := JStr "error"; "error" := JStr text]}.

(** The Checker containers the log tells were spawned. *)
Fixpoint checker_spawns (l : list LogLine) : list string :=
  match l with
  | [] => []
  | Spawned_Checker_container container_id :: rest => container_id :: checker_spawns rest
  | _ :: rest => checker_spawns rest
  end.

(** The entry [_execute_job] creates in [job_events]. *)
Definition new_events : JobEvents := mkJobEvents false false ∅.

(** The world when the [try] block of a supervisor starts. *)
Definition supervised (job_id : string) (w : World) : World :=
  set_job_events (<[job_id := new_events]>) w.

(** The world when a supervisor has left: the [finally] clause is done. *)
Definition left (job_id : string) (w : World) : World :=
  set_job_events (delete job_id) (set_active_jobs (delete job_id) w).

(** While the container runs: the waiter sleeps, wakes up after each nap
    and polls. *)
Definition waiting (naps : list N) : list EnvEvent :=
  flat_map (λ nap, [Elapse nap; Poll]) naps.

(** The microseconds of a list of naps. *)
Definition total (naps : list N) : Z := Z.of_N (foldr N.add 0%N naps).





(** The Builder of J1 never exits: the waiter polls every five minutes
    and then once more two seconds later. *)
Definition env_builder_hangs : JobEnv :=
  mkJobEnv None
    (Spawned "b1") [Elapse 300000000; Poll; Elapse 300000000; Poll; Elapse 2000000; Poll]
    (Spawned "c1") [].



(** The Builder reports an error while it runs. *)
Definition env_error_callback : JobEnv :=
  mkJobEnv None
    (Spawned "b1") [Callback "J1" (error_payload "LLM unreachable")]
    (Spawned "c1") [].

(** J1 after an error callback of its Builder, and after a Builder that
    hangs. *)
Definition world_J1_error : World :=
  (_execute_job env_error_callback "J1" world_J1_admitted).2.

Definition world_J1_timeout : World :=
  (_execute_job env_builder_hangs "J1" world_J1_admitted).2.

(** J1 approved, right after the approval. *)
Definition world_J1_approved : World := (approve_job "J1" world_J1_awaiting).2.

(** J1 awaiting approval, then rejected. *)
Definition world_J1_rejected : World :=
  (reject_job "J1" (Some "not what I asked") world_J1_awaiting).2.

(** The larger of the two percentages of a sample reaches a threshold. *)
Definition load_reaches (threshold cpu ram : Q) : Prop :=
  (threshold <= cpu)%Q ∨ (threshold <= ram)%Q.

(** The containers a RED alert pauses: the running ones whose name has
    the part [icarus_]. *)
Definition to_pause (c : Docker.Container) : bool :=
  bool_decide (Docker.status c = Docker.running) && Py.contains "icarus_" (Docker.name c).

(** What a RED alert does to one container of the daemon. *)
Definition paused_by_alert (cs : gmap string Docker.Container) (container_id : string)
    : option Docker.Container :=
  match cs !! container_id with
  | Some c => if to_pause c then Some (Docker.with_status Docker.paused c) else Some c
  | None => None
  end.

(** J1 admitted and its Builder running. *)
Definition world_builder_running : World :=
  (spawn_builder (Spawned "b1") "J1" "write hello" "icarus_workspace_J1" ""
     world_J1_admitted).2.

(** Four jobs are submitted and the admission loop takes four turns. *)
Definition four_submitted_and_admitted : list Operation :=
  [Submit "J1" "a" "/p"; Submit "J2" "b" "/p"; Submit "J3" "c" "/p"; Submit "J4" "d" "/p";
   Admit (Measured 10%Q 10%Q); Admit (Measured 10%Q 10%Q); Admit (Measured 10%Q 10%Q);
   Admit (Measured 10%Q 10%Q)].

(** The writes to table [jobs]: a new pending row, a status update of a
    row, and the id of a container recorded in a row. *)
Inductive jobs_write : gmap string Job → gmap string Job → Prop :=
| write_new m job_id task project_path t :
    jobs_write m (<[job_id := mkJob job_id task PENDING project_path t None None None None]> m)
| write_status m job_id job status error_message t :
    m !! job_id = Some job →
    jobs_write m (<[job_id := updated status error_message t job]> m)
| write_builder_container_id m job_id job container_id :
    m !! job_id = Some job →
    jobs_write m (<[job_id := with_builder_container_id (Some container_id) job]> m)
| write_checker_container_id m job_id job container_id :
    m !! job_id = Some job →
    jobs_write m (<[job_id := with_checker_container_id (Some container_id) job]> m).

(** A coroutine changes table [jobs] by these writes only. *)
Definition writes_jobs {A} (c : M A) : Prop :=
  ∀ w, rtc jobs_write (jobs w) (jobs (c w).2).

(** Every row is stored under its [job_id], and a row in a terminal
    status has its completion time. *)
Definition jobs_well_formed (m : gmap string Job) : Prop :=
  ∀ j job, m !! j = Some job →
    job_id job = j ∧ (is_terminal (DB.status job) = true → is_Some (completed_at job)).

(** A run of the application: two jobs are submitted and admitted, the
    first one is built, checked and approved, the Builder of the second
    one exits with code 2, and the second one is rejected. *)
Definition a_day_of_work : list Operation :=
  [Submit "J1" "write hello" "/project"; Submit "J2" "write tests" "/project";
   Admit (Measured 10%Q 10%Q); Admit (Measured 10%Q 10%Q);
   Execute env_happy "J1";
   Execute (mkJobEnv None (Spawned "b2") [Elapse 2000000; Poll; ContainerExits "b2" 2; Poll]
                     (Spawned "c2") []) "J2";
   Approval "J1" true None; Approval "J2" false (Some "exit code 2")].

(** * Reasoning about coroutines *)

Section Unchanged.
Context {B : Type} (f : World → B).

Lemma unchanged_ret {A} (a : A) : unchanged f (ret a).
Proof. by intros w. Qed.

Lemma unchanged_raise {A} (e : Exn) : unchanged f (raise (A := A) e).
Proof. by intros w. Qed.

Lemma unchanged_gets {A} (g : World → A) : unchanged f (gets g).
Proof. by intros w. Qed.

Lemma unchanged_blocked {A} : unchanged f (λ w, (Blocked (A := A), w)).
Proof. by intros w. Qed.

Lemma unchanged_modify (g : World → World) :
  (∀ w, f (g w) = f w) → unchanged f (modify g).
Proof. intros H w. apply H. Qed.

Lemma unchanged_bind {A C} (c : M A) (k : A → M C) :
  unchanged f c → (∀ a, unchanged f (k a)) → unchanged f (bind c k).
Proof.
  intros Hc Hk w. unfold bind. specialize (Hc w).
  destruct (c w) as [[a| e |] w']; simpl in *; [|done..].
  by rewrite Hk.
Qed.

Lemma unchanged_try_except {A} (c : M A) (h : Exn → M A) :
  unchanged f c → (∀ e, unchanged f (h e)) → unchanged f (try_except c h).
Proof.
  intros Hc Hh w. unfold try_except. specialize (Hc w).
  destruct (c w) as [[a| e |] w']; simpl in *; [done| |done].
  by rewrite Hh.
Qed.

Lemma unchanged_try_finally {A} (c : M A) (fin : M unit) :
  unchanged f c → unchanged f fin → unchanged f (try_finally c fin).
Proof.
  intros Hc Hf w. unfold try_finally. specialize (Hc w).
  destruct (c w) as [[a| e |] w']; simpl in *; [| |done];
    specialize (Hf w'); destruct (fin w') as [[[]| e' |] w'']; simpl in *; congruence.
Qed.

Lemma unchanged_when (b : bool) (c : M unit) : unchanged f c → unchanged f (when b c).
Proof. intros H. destruct b; [done|]. apply unchanged_ret. Qed.

End Unchanged.

(** Goals [unchanged f c] for a [c] built from the combinators, by the
    structure of [c]; what is left is the calls it makes. *)
Ltac unchanged_step :=
  match goal with
  | |- unchanged _ (ret _) => apply unchanged_ret
  | |- unchanged _ (raise _) => apply unchanged_raise
  | |- unchanged _ (gets _) => apply unchanged_gets
  | |- unchanged _ utcnow => apply unchanged_gets
  | |- unchanged _ (λ w, (Blocked, w)) => apply unchanged_blocked
  | |- unchanged _ (modify _) => apply unchanged_modify; intros; try reflexivity
  | |- unchanged _ (logger _) => apply unchanged_modify; intros; try reflexivity
  | |- unchanged _ (bind _ _) => apply unchanged_bind; [|intros]
  | |- unchanged _ (try_except _ _) => apply unchanged_try_except; [|intros]
  | |- unchanged _ (try_finally _ _) => apply unchanged_try_finally
  | |- unchanged _ (when _ _) => apply unchanged_when
  | |- unchanged _ (match ?x with _ => _ end) => destruct x
  | |- unchanged _ (if ?x then _ else _) => destruct x
  end.

Ltac unchanged := repeat unchanged_step; try done.

(** Run the combinators and the field updates on a world that is given by
    its fields. *)
Ltac run :=
  cbv beta iota zeta delta
    [bind ret gets modify raise try_except try_finally when logger utcnow
     set_jobs set_telemetry set_audit_logs set_containers set_volumes set_queue
     set_active_jobs set_job_events set_sentinel set_now add_log
     jobs telemetry audit_logs containers volumes queue active_jobs job_events
     sentinel now log fst snd
     cpu_percent ram_percent yellow_threshold red_threshold poll_interval current_alert
     docker_manager paused_containers with_current_alert with_paused_containers].

Create HintDb coroutines.

#[local] Hint Unfold scalar_one commit queue_put create_workspace_volume spawn_builder
  spawn_checker pause_container stop_container cleanup_volume get_system_stats
  _trigger_yellow_alert containers_list _trigger_red_alert resume_one _clear_alerts
  _check_resources _monitor_loop set_error_signal set_complete_signal container_ends
  _update_job_status act_on_done _wait_for_container stop_if_set logger utcnow
  : coroutines.

(** ** The two log tables reject the rows the program builds *)

Lemma new_Telemetry_cpu_usage (v0 v1 : Value) (rest : list (string * Value)) :
  new Telemetry (("job_id", v0) :: ("cpu_usage", v1) :: rest)
  = raise (TypeError "'cpu_usage' is an invalid keyword argument for Telemetry").
Proof. reflexivity. Qed.

Lemma new_AuditLog_audit_report (v0 v1 : Value) (rest : list (string * Value)) :
  new AuditLog (("job_id", v0) :: ("audit_report", v1) :: rest)
  = raise (TypeError "'audit_report' is an invalid keyword argument for AuditLog").
Proof. reflexivity. Qed.

Lemma bind_raise {A C} (e : Exn) (k : A → M C) : bind (raise e) k = raise e.
Proof. reflexivity. Qed.

(** ** What the environment of a supervisor leaves alone *)

Section Frame.
Context {B : Type} (f : World → B) (Hf : env_frame f).

Ltac frame :=
  destruct Hf as (Hc & Hl & He & Hn & Hs); intros;
  repeat first
    [ unchanged_step
    | progress autounfold with coroutines
    | progress (intros; first [ reflexivity | apply Hc | apply He | apply Hn | apply Hs
                              | apply Hl; reflexivity | assumption ]) ].

Lemma unchanged_agent_callback job_id data : unchanged f (agent_callback job_id data).
Proof.
  unfold agent_callback.
  rewrite new_Telemetry_cpu_usage, new_AuditLog_audit_report, !bind_raise.
  frame.
Qed.

Lemma unchanged__collect_telemetry job_id container_id :
  unchanged f (_collect_telemetry job_id container_id).
Proof.
  unfold _collect_telemetry.
  apply unchanged_try_except; [|frame].
  apply unchanged_bind; [frame|]. intros [c|]; [|frame].
  destruct (negb _); [frame|].
  rewrite new_Telemetry_cpu_usage, bind_raise. frame.
Qed.

Lemma unchanged_pause_listed l p : unchanged f (pause_listed l p).
Proof.
  revert p. induction l as [|[cid c] l IH]; intros p; simpl; [frame|].
  destruct (decide _); [|apply IH].
  apply unchanged_bind; [frame|]. intros _. apply IH.
Qed.

Lemma unchanged_resume_all l : unchanged f (resume_all l).
Proof.
  induction l as [|cid l IH]; simpl; [frame|].
  apply unchanged_bind; [frame|]. intros _. apply IH.
Qed.

Lemma unchanged__monitor_loop h : unchanged f (_monitor_loop h).
Proof.
  pose proof unchanged_pause_listed as Hp. pose proof unchanged_resume_all as Hr.
  unfold _monitor_loop, _check_resources, _trigger_red_alert, _clear_alerts.
  repeat first [ apply Hp | apply Hr | unchanged_step ]; frame.
Qed.

Lemma unchanged_happens e : unchanged f (happens e).
Proof.
  destruct e; simpl;
    [frame|frame|frame|frame| | |apply unchanged__monitor_loop|frame].
  - apply unchanged_try_except; [|frame].
    apply unchanged_bind; [apply unchanged_agent_callback|frame].
  - apply unchanged_bind; [apply unchanged__collect_telemetry|frame].
Qed.

Lemma unchanged_happen script : unchanged f (happen script).
Proof.
  induction script as [|e script IH]; simpl; [frame|].
  apply unchanged_bind; [apply unchanged_happens|]. intros _. apply IH.
Qed.

Lemma unchanged__wait_for_container container_id start_time timeout :
  unchanged f (_wait_for_container container_id start_time timeout).
Proof. frame. Qed.

Lemma unchanged_act_on_done job_id e c r : unchanged f (act_on_done job_id e c r).
Proof. frame. Qed.

Lemma unchanged_first_completed job_id container_id start_time timeout script :
  unchanged f (first_completed job_id container_id start_time timeout script).
Proof.
  induction script as [|e script IH]; simpl.
  - apply unchanged_bind; [frame|]. intros ev. destruct (_ || _); [|frame].
    apply unchanged_bind; [apply unchanged_act_on_done|frame].
  - apply unchanged_bind; [frame|]. intros ev. destruct (_ || _).
    { apply unchanged_bind; [apply unchanged_act_on_done|frame]. }
    assert (unchanged f (bind (happens e)
              (λ _, first_completed job_id container_id start_time timeout script))) as Hother.
    { apply unchanged_bind; [apply unchanged_happens|]. intros _. apply IH. }
    destruct e; try exact Hother.
    intros w.
    pose proof (unchanged__wait_for_container container_id start_time timeout w) as Hw.
    destruct (_wait_for_container container_id start_time timeout w) as [[[code|]|e|] w'];
      simpl in *; [| |..].
    + rewrite <- Hw.
      apply (unchanged_bind f (act_on_done job_id false false (Some (inr code)))
                              (λ code, ret (code, script))); [apply unchanged_act_on_done|].
      intros; apply unchanged_ret.
    + rewrite <- Hw. apply IH.
    + rewrite <- Hw.
      apply (unchanged_bind f (act_on_done job_id false false (Some (inl e)))
                              (λ code, ret (code, script))); [apply unchanged_act_on_done|].
      intros; apply unchanged_ret.
    + done.
Qed.

Lemma unchanged__wait_for_container_with_events job_id container_id script :
  unchanged f (_wait_for_container_with_events job_id container_id script).
Proof.
  unfold _wait_for_container_with_events.
  apply unchanged_bind; [apply unchanged_gets|]. intros [ev|]; [|apply unchanged_raise].
  apply unchanged_bind; [apply unchanged_gets|]. intros t.
  apply unchanged_first_completed.
Qed.

End Frame.

(** ** The log tables *)

Lemma env_frame_telemetry : env_frame telemetry.
Proof. by repeat split. Qed.

Lemma env_frame_audit_logs : env_frame audit_logs.
Proof. by repeat split. Qed.

(** For an observation that only the two appends change. *)
Ltac tables Hf :=
  repeat first
    [ apply (unchanged__wait_for_container_with_events _ Hf)
    | apply (unchanged_happen _ Hf)
    | apply (unchanged_happens _ Hf)
    | unchanged_step
    | progress autounfold with coroutines ].

Lemma tables_operate {B} (f : World → B) (op : Operation) :
  env_frame f →
  (∀ g w, f (set_jobs g w) = f w) → (∀ g w, f (set_volumes g w) = f w) →
  (∀ g w, f (set_queue g w) = f w) → (∀ g w, f (set_active_jobs g w) = f w) →
  (∀ l w, f (add_log l w) = f w) →
  ∀ w, f (operate op w) = f w.
Proof.
  intros Hf Hj Hv Hq Ha Hl. pose proof Hf as (Hc & _ & He & Hn & Hs).
  destruct op as [uuid task path|h|env job_id|job_id approved comment|e]; simpl.
  - change (unchanged f (submit_job uuid task path)).
    unfold submit_job. tables Hf; auto.
  - change (unchanged f (_process_queue h)).
    unfold _process_queue. tables Hf; auto.
  - change (unchanged f (_execute_job env job_id)).
    unfold _execute_job, _execute_job_try, _execute_job_step4, _execute_job_step6,
      _execute_job_step7, _execute_job_except, _execute_job_finally.
    tables Hf; auto.
  - change (unchanged f (Main.approve_job job_id approved comment)).
    unfold Main.approve_job, approve_job, reject_job. tables Hf; auto.
  - apply (unchanged_happens _ Hf).
Qed.

Lemma agent_callback_current_tool job_id (data : gmap string Json) v w :
  (agent_callback job_id (<["current_tool" := v]> data) w).1
  = Raise (HTTPException 500 "Failed to process callback").
Proof.
  unfold agent_callback, try_except.
  rewrite new_Telemetry_cpu_usage, bind_raise.
  unfold dict_has. rewrite lookup_insert_eq.
  by rewrite bool_decide_eq_true_2 by eauto.
Qed.

Lemma agent_callback_audit_report job_id (data : gmap string Json) v w :
  (agent_callback job_id (<["audit_report" := v]> data) w).1
  = Raise (HTTPException 500 "Failed to process callback").
Proof.
  unfold agent_callback, try_except.
  rewrite new_Telemetry_cpu_usage, new_AuditLog_audit_report, !bind_raise.
  unfold dict_has at 2. rewrite lookup_insert_eq.
  rewrite (bool_decide_eq_true_2 (is_Some (Some v))) by eauto.
  by destruct (dict_has _ "current_tool").
Qed.

Lemma _collect_telemetry_running job_id container_id c w :
  (_collect_telemetry job_id container_id
     (set_containers (<[container_id := Docker.with_status Docker.running c]>) w)).1
  = Ok Break.
Proof.
  unfold _collect_telemetry, try_except, bind, gets. simpl.
  by rewrite lookup_insert_eq.
Qed.

Lemma tables_operate_all ops w :
  telemetry (operate_all ops w) = telemetry w
  ∧ audit_logs (operate_all ops w) = audit_logs w.
Proof.
  revert w. induction ops as [|op ops IH] using rev_ind; intros w; [done|].
  unfold operate_all in *. rewrite foldl_app. simpl.
  rewrite !tables_operate; auto using env_frame_telemetry, env_frame_audit_logs.
Qed.

(** C5. No telemetry row and no audit row is ever persisted: the sampler
    and the callback endpoint build their [Telemetry] rows with the
    keywords [cpu_usage] and [ram_usage_mb], and the endpoint builds its
    [AuditLog] rows with [audit_report]; none is an attribute of its class
    (the columns are [cpu_percent], [ram_mb] and [report]), so the
    constructor raises [TypeError] before anything is added.  A callback
    that carries [current_tool] or [audit_report] therefore ends in an
    error, and whatever the application does, in any order, both tables
    stay as they were. *)
Theorem no_telemetry_or_audit_row_is_persisted :
  (∀ job_id cpu_percent mem_usage_mb container_id,
     new Telemetry [("job_id", VJson (JStr job_id)); ("cpu_usage", VFloat cpu_percent);
                    ("ram_usage_mb", VFloat mem_usage_mb);
                    ("container_id", VJson (JStr container_id))]
     = raise (TypeError "'cpu_usage' is an invalid keyword argument for Telemetry"))
  ∧ (∀ job_id data,
       new Telemetry [("job_id", VJson (JStr job_id));
                      ("cpu_usage", dict_get_float data "cpu_usage" 0%Q);
                      ("ram_usage_mb", dict_get_float data "ram_usage_mb" 0%Q);
                      ("current_tool", VJson (dict_get data "current_tool" JNull))]
       = raise (TypeError "'cpu_usage' is an invalid keyword argument for Telemetry"))
  ∧ (∀ job_id data,
       new AuditLog [("job_id", VJson (JStr job_id));
                     ("audit_report", VJson (dict_get data "audit_report" JNull))]
       = raise (TypeError "'audit_report' is an invalid keyword argument for AuditLog"))
  ∧ ("cpu_usage" ∉ columns Telemetry) ∧ ("ram_usage_mb" ∉ columns Telemetry)
  ∧ ("cpu_percent" ∈ columns Telemetry) ∧ ("ram_mb" ∈ columns Telemetry)
  ∧ ("audit_report" ∉ columns AuditLog) ∧ ("report" ∈ columns AuditLog)
  ∧ (∀ job_id data v w,
       (agent_callback job_id (<["current_tool" := v]> data) w).1
       = Raise (HTTPException 500 "Failed to process callback"))
  ∧ (∀ job_id data v w,
       (agent_callback job_id (<["audit_report" := v]> data) w).1
       = Raise (HTTPException 500 "Failed to process callback"))
  ∧ (∀ job_id container_id c w,
       (_collect_telemetry job_id container_id
          (set_containers (<[container_id := Docker.with_status Docker.running c]>) w)).1
       = Ok Break)
  ∧ (∀ ops w, telemetry (operate_all ops w) = telemetry w
              ∧ audit_logs (operate_all ops w) = audit_logs w).
Proof.
  split_and!;
    first [ done
          | solve [apply (bool_decide_unpack _); vm_compute; exact I]
          | apply agent_callback_current_tool
          | apply agent_callback_audit_report
          | apply _collect_telemetry_running
          | intros; apply tables_operate_all ].
Qed.

(** ** The callback endpoint *)

(** C9 as stated does not hold: a payload with [current_tool] for a job
    that does not exist is answered with status 500, not 200. *)
Lemma callback_for_missing_job_answered_500 :
  jobs empty_world !! "J404" = None
  ∧ http_status (agent_callback "J404" {["current_tool" := JStr "pytest"]} empty_world).1 = 500
  ∧ http_status (agent_callback "J404" {["audit_report" := JOther "{}"]} empty_world).1 = 500.
Proof. by vm_compute. Qed.

(** C9, amended.  A callback that carries neither [current_tool] nor
    [audit_report], for a job that has no entry in [job_events] (a job
    that is missing, or whose supervisor has returned), is answered with
    200 and changes nothing: no telemetry row, no audit row, no signal. *)
Theorem callback_without_bus_is_dropped job_id (data : gmap string Json) w :
  job_events w !! job_id = None →
  data !! "current_tool" = None →
  data !! "audit_report" = None →
  agent_callback job_id data w = (Ok "acknowledged", w)
  ∧ http_status (agent_callback job_id data w).1 = 200.
Proof.
  intros Hbus Htool Haudit.
  assert (agent_callback job_id data w = (Ok "acknowledged", w)) as ->; [|done].
  unfold agent_callback, try_except, dict_has, when, bind.
  rewrite Htool, Haudit. simpl.
  destruct w; unfold set_error_signal, set_complete_signal, modify, set_job_events;
    simpl in *.
  repeat case_bool_decide; simpl; by rewrite ?Hbus.
Qed.

Lemma callback_without_bus_is_dropped_witness :
  agent_callback "J404" {["status" := JStr "error"; "error" := JStr "LLM unreachable"]}
                 empty_world
  = (Ok "acknowledged", empty_world)
  ∧ http_status (agent_callback "J404"
       {["status" := JStr "error"; "error" := JStr "LLM unreachable"]} empty_world).1 = 200.
Proof.
  apply (callback_without_bus_is_dropped "J404"
           {["status" := JStr "error"; "error" := JStr "LLM unreachable"]} empty_world);
    reflexivity.
Defined.

(** The entry of a job in [job_events] is gone once its supervisor has
    returned, with a result or with an exception. *)
Lemma _execute_job_removes_bus env job_id w :
  (_execute_job env job_id w).1 ≠ Blocked →
  job_events (_execute_job env job_id w).2 !! job_id = None.
Proof.
  unfold _execute_job, bind, modify, try_finally, _execute_job_finally.
  destruct (try_except _ _ _) as [[[]| e |] w'] eqn:E; simpl;
    [| |done]; intros _; apply lookup_delete_eq.
Qed.

(** ** Admission *)

(** C4 as stated does not hold: the loop does not read the sentinel's
    level.  With the sentinel RED since its last poll, a fresh sample of
    50 % lets the job through; and with a yellow threshold of 70 %, a load
    of 75 % makes the sentinel YELLOW while the same load admits the job. *)
Lemma dispatched_while_sentinel_RED :
  (current_alert <$> sentinel world_J1_red) = Some RED
  ∧ (_process_queue (Measured 50%Q 50%Q) world_J1_red).1 = Ok (Dispatched "J1")
  ∧ is_Some (active_jobs (_process_queue (Measured 50%Q 50%Q) world_J1_red).2 !! "J1")
  ∧ (current_alert <$> sentinel world_J1_yellow70) = Some YELLOW
  ∧ (_process_queue (Measured 75%Q 10%Q) world_J1_yellow70).1 = Ok (Dispatched "J1").
Proof. split_and!; try by vm_compute. by eexists; vm_compute. Qed.

(** C4, amended.  When a sentinel is configured, the admission loop takes
    a fresh host sample before it marks a job in flight: if the larger of
    CPU and RAM percent is at least 80 it logs, re-enqueues the job id at
    the back and sleeps 10 s; otherwise, and when the sampling fails, it
    dispatches the job.  The sentinel's current level and its thresholds
    play no part. *)
Theorem admission_gate job_id rest h w :
  queue w = job_id :: rest →
  (size (active_jobs w) < max_concurrent)%nat →
  is_Some (sentinel w) →
  match h with
  | Measured cpu ram =>
      if Py.ge (Py.max cpu ram) 80%Q
      then _process_queue h w
           = (Ok (Requeued job_id 10),
              set_queue (λ _, (rest ++ [job_id])%list) (add_log (System_under_load job_id) w))
      else _process_queue h w
           = (Ok (Dispatched job_id),
              set_active_jobs (<[job_id := now w]>) (set_queue (λ _, rest) w))
  | PsutilError msg =>
      _process_queue h w
      = (Ok (Dispatched job_id),
         set_active_jobs (<[job_id := now w]>)
           (add_log (Failed_to_get_system_stats msg) (set_queue (λ _, rest) w)))
  end.
Proof.
  intros Hq Hn [s Hs]. destruct w; simpl in *; subst.
  unfold _process_queue, queue_put, get_system_stats. run.
  replace (max_concurrent <=? size active_jobs0)%nat with false
    by (symmetry; apply Nat.leb_gt; lia).
  destruct h as [cpu ram|msg]; run; [by destruct (Py.ge _ _)|done].
Qed.

Lemma admission_gate_witness :
  _process_queue (Measured 85%Q 10%Q) world_J1_red
  = (Ok (Requeued "J1" 10),
     set_queue (λ _, ["J1"]) (add_log (System_under_load "J1") world_J1_red)).
Proof.
  apply (admission_gate "J1" [] (Measured 85%Q 10%Q) world_J1_red);
    [reflexivity | vm_compute; lia | by eexists; vm_compute].
Defined.

(** ** The sentinel *)

(** C8 as stated does not hold: a failed sample is handled as a load of
    zero.  A RED sentinel that had paused a container goes back to GREEN
    on the failure and resumes the container. *)
Lemma failed_sample_clears_RED :
  (current_alert <$> sentinel world_paused) = Some RED
  ∧ (Docker.status <$> containers world_paused !! "b1") = Some Docker.paused
  ∧ (_monitor_loop (PsutilError "psutil failed") world_paused).1 = Ok tt
  ∧ (current_alert <$> sentinel (_monitor_loop (PsutilError "psutil failed") world_paused).2)
    = Some GREEN
  ∧ (Docker.status <$>
       containers (_monitor_loop (PsutilError "psutil failed") world_paused).2 !! "b1")
    = Some Docker.running.
Proof. by vm_compute. Qed.

Lemma resume_one_spec x w :
  ∃ w', resume_one x w = (Ok tt, w')
        ∧ containers w' =
            match containers w !! x with
            | Some c =>
                if bool_decide (Docker.status c = Docker.paused)
                then <[x := Docker.with_status Docker.running c]> (containers w)
                else containers w
            | None => containers w
            end
        ∧ ∀ line, line ∈ log w → line ∈ log w'.
Proof.
  destruct w. unfold resume_one. run.
  destruct (containers0 !! x) as [c|];
    [|eexists; split_and!; [done..|intros line; rewrite elem_of_app; auto]].
  destruct (decide (Docker.status c = Docker.paused)) as [Hp|Hp].
  - rewrite (bool_decide_eq_true_2 _ Hp).
    eexists; split_and!; [done..|intros line; rewrite elem_of_app; auto].
  - rewrite (bool_decide_eq_false_2 _ Hp). by eexists.
Qed.

Lemma resume_all_ok l w : (resume_all l w).1 = Ok tt.
Proof.
  revert w. induction l as [|x l IH]; intros w; [done|].
  simpl. unfold bind. destruct (resume_one_spec x w) as (w' & -> & _). apply IH.
Qed.

Lemma resume_all_log l w line : line ∈ log w → line ∈ log (resume_all l w).2.
Proof.
  revert w. induction l as [|x l IH]; intros w; [done|].
  simpl. unfold bind. destruct (resume_one_spec x w) as (w' & -> & _ & Hlog).
  intros H. apply IH, Hlog, H.
Qed.

Lemma resume_all_lookup l w container_id :
  containers (resume_all l w).2 !! container_id = resumed l (containers w) container_id.
Proof.
  revert w. induction l as [|x l IH]; intros w.
  { unfold resumed. simpl. by destruct (containers w !! container_id). }
  simpl. unfold bind. destruct (resume_one_spec x w) as (w' & -> & Hw' & _).
  rewrite IH, Hw'. unfold resumed.
  destruct (decide (container_id = x)) as [->|Hne].
  - destruct (containers w !! x) as [c|] eqn:Hx; [|by rewrite Hx].
    destruct (decide (Docker.status c = Docker.paused)) as [Hp|Hp].
    + rewrite (bool_decide_eq_true_2 _ Hp), lookup_insert_eq. simpl.
      rewrite (bool_decide_eq_true_2 (x ∈ x :: l)) by (apply elem_of_cons; auto).
      by rewrite andb_false_r.
    + rewrite (bool_decide_eq_false_2 _ Hp), Hx.
      by rewrite (bool_decide_eq_false_2 _ Hp), !andb_false_r.
  - assert (bool_decide (container_id ∈ x :: l) = bool_decide (container_id ∈ l)) as ->
      by (apply bool_decide_ext; rewrite elem_of_cons; tauto).
    destruct (containers w !! x) as [c|] eqn:Hx; [|done].
    destruct (bool_decide (Docker.status c = Docker.paused)); [|done].
    by rewrite lookup_insert_ne.
Qed.

Lemma zero_load_below (threshold : Q) :
  (0 < threshold)%Q → Py.ge (Py.max 0%Q 0%Q) threshold = false.
Proof.
  intros H. unfold Py.ge, Py.max. simpl.
  apply not_true_is_false. rewrite Qle_bool_iff. by apply Qlt_not_le.
Qed.

(** C8, amended.  A failure to sample the host is not fatal: it is logged
    and read as a load of zero.  With positive thresholds the poll then
    ends with the level GREEN: a GREEN sentinel is left as it was and no
    container is touched; a YELLOW one is cleared without touching a
    container; a RED one is cleared and every container it remembered that
    is still paused is resumed.  No container is paused. *)
Theorem failed_sample_is_read_as_zero_load msg self w :
  (0 < yellow_threshold self)%Q →
  (0 < red_threshold self)%Q →
  ∃ self' w',
    _check_resources (PsutilError msg) self w = (Ok self', w')
    ∧ current_alert self' = GREEN
    ∧ Failed_to_get_system_stats msg ∈ log w'
    ∧ (current_alert self = GREEN → self' = self ∧ containers w' = containers w)
    ∧ (current_alert self = YELLOW → containers w' = containers w)
    ∧ (current_alert self = RED → docker_manager self = true →
       paused_containers self' = []
       ∧ ∀ container_id,
           containers w' !! container_id
           = resumed (paused_containers self) (containers w) container_id).
Proof.
  intros Hy Hr. destruct self as [yt rt pi alert dm paused]. destruct w. simpl in Hy, Hr.
  assert (∀ l, Failed_to_get_system_stats msg
               ∈ ((log0 ++ [Failed_to_get_system_stats msg]) ++ l)%list) as Hin.
  { intros l. rewrite !elem_of_app, list_elem_of_singleton. auto. }
  unfold _check_resources, get_system_stats, _clear_alerts. run.
  rewrite (zero_load_below _ Hr), (zero_load_below _ Hy).
  destruct alert; simpl.
  - eexists _, _. split; [reflexivity|]. simpl. split_and!; try done.
    rewrite <- (app_nil_r (_ ++ _)). apply Hin.
  - eexists _, _. split; [reflexivity|]. simpl. split_and!; try done; apply Hin.
  - destruct (decide (paused = [])) as [->|Hne]; simpl.
    { eexists _, _. split; [reflexivity|]. simpl. split_and!; try done; try apply Hin.
      intros _ _. split; [done|].
      intros cid. unfold resumed. by destruct (containers0 !! cid). }
    rewrite (bool_decide_eq_false_2 _ Hne). simpl. destruct dm.
    + match goal with
      | |- context [resume_all ?l ?W] =>
          pose proof (resume_all_ok l W) as Hok;
          pose proof (λ cid, resume_all_lookup l W cid) as Hlook;
          pose proof (resume_all_log l W (Failed_to_get_system_stats msg)) as Hlog;
          destruct (resume_all l W) as [[[]|e|] w'] eqn:E; simpl in *; try done
      end.
      eexists _, _. split; [reflexivity|]. simpl.
      split_and!; try done; apply Hlog, Hin.
    + eexists _, _. split; [reflexivity|]. simpl. split_and!; try done; apply Hin.
Qed.

Lemma failed_sample_is_read_as_zero_load_witness :
  sentinel world_paused = Some monitor_paused
  ∧ ∃ self' w',
      _check_resources (PsutilError "psutil failed") monitor_paused world_paused
      = (Ok self', w')
      ∧ current_alert self' = GREEN
      ∧ (containers w' !! "b1"
         = resumed (paused_containers monitor_paused) (containers world_paused) "b1").
Proof.
  split; [by vm_compute|].
  destruct (failed_sample_is_read_as_zero_load "psutil failed" monitor_paused world_paused)
    as (self' & w' & Hrun & Hgreen & _ & _ & _ & Hred); [reflexivity..|].
  exists self', w'. split_and!; [done..|]. by apply Hred.
Defined.

(** ** Status updates *)

Lemma status_trace_app job_id l1 l2 :
  status_trace job_id (l1 ++ l2) = (status_trace job_id l1 ++ status_trace job_id l2)%list.
Proof.
  induction l1 as [|x l1 IH]; [done|].
  destruct x; simpl; try done. case_bool_decide; simpl; by rewrite IH.
Qed.

Lemma env_frame_status_trace job_id : env_frame (λ w, status_trace job_id (log w)).
Proof.
  split_and!; try done. intros l w Hl. destruct w; simpl.
  rewrite status_trace_app. destruct l; simpl; try apply app_nil_r. done.
Qed.

Lemma env_frame_jobs : env_frame jobs.
Proof. by repeat split. Qed.

Lemma _update_job_status_run job_id status error_message job w :
  jobs w !! job_id = Some job →
  _update_job_status job_id status error_message w
  = (Ok tt, add_log (Job_status_updated job_id status)
              (set_jobs (<[job_id := updated status error_message (now w) job]>) w)).
Proof.
  intros Hj. destruct w; simpl in *. unfold _update_job_status, scalar_one, commit. run.
  by rewrite Hj.
Qed.

Lemma _update_job_status_missing job_id status error_message w :
  jobs w !! job_id = None →
  _update_job_status job_id status error_message w = (Raise NoResultFound, w).
Proof.
  intros Hj. destruct w; simpl in *. unfold _update_job_status, scalar_one, commit. run.
  by rewrite Hj.
Qed.

Lemma stop_container_run container_id w :
  ∃ w', stop_container container_id w = (Ok tt, w')
        ∧ jobs w' = jobs w ∧ now w' = now w
        ∧ ∀ job_id, status_trace job_id (log w') = status_trace job_id (log w).
Proof.
  destruct w. unfold stop_container. run.
  destruct (containers0 !! container_id); eexists; split_and!; try done;
    intros j; simpl; rewrite status_trace_app; apply app_nil_r.
Qed.

Lemma stop_if_set_run container_id w :
  ∃ w', stop_if_set container_id w = (Ok tt, w')
        ∧ jobs w' = jobs w ∧ now w' = now w
        ∧ ∀ job_id, status_trace job_id (log w') = status_trace job_id (log w).
Proof.
  destruct container_id as [c|]; simpl; [|by eexists].
  destruct (negb _); [apply stop_container_run|by eexists].
Qed.

Lemma cleanup_volume_run volume_name w :
  ∃ w', cleanup_volume volume_name w = (Ok tt, w')
        ∧ jobs w' = jobs w ∧ now w' = now w
        ∧ ∀ job_id, status_trace job_id (log w') = status_trace job_id (log w).
Proof.
  destruct w. unfold cleanup_volume. run.
  destruct (bool_decide _); eexists; split_and!; try done;
    intros j; simpl; rewrite status_trace_app; apply app_nil_r.
Qed.

Lemma status_trace_updated job_id status l :
  status_trace job_id (l ++ [Job_status_updated job_id status])
  = (status_trace job_id l ++ [status])%list.
Proof. rewrite status_trace_app. simpl. by rewrite bool_decide_eq_true_2. Qed.

Lemma scalar_one_run job_id job w :
  jobs w !! job_id = Some job → scalar_one job_id w = (Ok job, w).
Proof. intros Hj. unfold scalar_one, bind, gets. by rewrite Hj. Qed.

Lemma status_updated status error_message t job :
  DB.status (updated status error_message t job) = status.
Proof. unfold updated. by destruct (Py.truthy _), (is_terminal _). Qed.

Lemma _update_job_status_spec job_id status error_message job w :
  jobs w !! job_id = Some job →
  ∃ w' job',
    _update_job_status job_id status error_message w = (Ok tt, w')
    ∧ jobs w' !! job_id = Some job' ∧ DB.status job' = status
    ∧ status_trace job_id (log w') = (status_trace job_id (log w) ++ [status])%list.
Proof.
  intros Hj.
  exists (add_log (Job_status_updated job_id status)
            (set_jobs (<[job_id := updated status error_message (now w) job]>) w)),
         (updated status error_message (now w) job).
  split; [by apply _update_job_status_run|].
  destruct w; simpl in *. rewrite lookup_insert_eq, status_trace_updated.
  split_and!; try done. apply status_updated.
Qed.

Lemma approve_job_spec job_id job w :
  jobs w !! job_id = Some job →
  (approve_job job_id w).1 = Ok tt
  ∧ job_status job_id (approve_job job_id w).2 = Some COMPLETED
  ∧ status_trace job_id (log (approve_job job_id w).2)
    = (status_trace job_id (log w) ++ [APPROVED; COMPLETED])%list.
Proof.
  intros Hj. unfold approve_job, bind.
  destruct (_update_job_status_spec job_id APPROVED None job w Hj)
    as (w1 & job1 & -> & Hj1 & _ & Ht1).
  rewrite (scalar_one_run _ _ _ Hj1).
  destruct (stop_if_set_run (builder_container_id job1) w1) as (w2 & -> & Hj2 & _ & Hl2).
  destruct (stop_if_set_run (checker_container_id job1) w2) as (w3 & -> & Hj3 & _ & Hl3).
  destruct (cleanup_volume_run ("icarus_workspace_" ++ job_id) w3)
    as (w4 & -> & Hj4 & _ & Hl4).
  rewrite <- Hj2, <- Hj3, <- Hj4 in Hj1.
  destruct (_update_job_status_spec job_id COMPLETED None job1 w4 Hj1)
    as (w5 & job5 & -> & Hj5 & Hs5 & Ht5).
  simpl. unfold job_status. rewrite Hj5, Ht5, Hl4, Hl3, Hl2, Ht1. simpl.
  by rewrite Hs5, <- app_assoc.
Qed.

Lemma reject_job_spec job_id comment job w :
  jobs w !! job_id = Some job →
  (reject_job job_id comment w).1 = Ok tt
  ∧ job_status job_id (reject_job job_id comment w).2 = Some REJECTED
  ∧ status_trace job_id (log (reject_job job_id comment w).2)
    = (status_trace job_id (log w) ++ [REJECTED])%list.
Proof.
  intros Hj. unfold reject_job, bind.
  destruct (_update_job_status_spec job_id REJECTED comment job w Hj)
    as (w1 & job1 & -> & Hj1 & Hs1 & Ht1).
  rewrite (scalar_one_run _ _ _ Hj1).
  destruct (stop_if_set_run (builder_container_id job1) w1) as (w2 & -> & Hj2 & _ & Hl2).
  destruct (stop_if_set_run (checker_container_id job1) w2) as (w3 & -> & Hj3 & _ & Hl3).
  destruct (cleanup_volume_run ("icarus_workspace_" ++ job_id) w3)
    as (w4 & E & Hj4 & _ & Hl4).
  rewrite E. simpl. unfold job_status.
  rewrite Hj4, Hj3, Hj2, Hj1, Hl4, Hl3, Hl2, Ht1. simpl. by rewrite Hs1.
Qed.

(** C2 as stated does not hold: on the completed job J1, [approve_job]
    does not fail.  It writes [approved] and [completed] again and moves
    the completion time; the endpoint answers "approved"; and
    [reject_job] on the same completed job makes it [rejected]. *)
Lemma approve_on_completed_job_succeeds :
  jobs world_J1_completed !! "J1"
  = Some (mkJob "J1" "write hello" COMPLETED "/project" 0 (Some 4000000)
                (Some "b1") (Some "c1") None)
  ∧ (approve_job "J1" world_J1_completed).1 = Ok tt
  ∧ (Main.approve_job "J1" true None world_J1_completed).1 = Ok "approved"
  ∧ jobs (approve_job "J1" world_J1_completed).2 !! "J1"
    = Some (mkJob "J1" "write hello" COMPLETED "/project" 0 (Some 64000000)
                  (Some "b1") (Some "c1") None)
  ∧ status_trace "J1" (log (approve_job "J1" world_J1_completed).2)
    = [BUILDING; CHECKING; AWAITING_APPROVAL; APPROVED; COMPLETED; APPROVED; COMPLETED]
  ∧ (reject_job "J1" (Some "too late") world_J1_completed).1 = Ok tt
  ∧ job_status "J1" (reject_job "J1" (Some "too late") world_J1_completed).2 = Some REJECTED.
Proof. by vm_compute. Qed.

(** C2, amended.  [approve_job] and [reject_job] do not look at the status
    of the job.  On a job that exists, in any status, [approve_job] writes
    [approved], cleans up and writes [completed]; [reject_job] writes
    [rejected] and cleans up; neither fails.  On a job that does not exist
    both raise the error of the missing row and change nothing. *)
Theorem approve_and_reject_are_unguarded job_id comment w :
  match jobs w !! job_id with
  | Some job =>
      (approve_job job_id w).1 = Ok tt
      ∧ job_status job_id (approve_job job_id w).2 = Some COMPLETED
      ∧ status_trace job_id (log (approve_job job_id w).2)
        = (status_trace job_id (log w) ++ [APPROVED; COMPLETED])%list
      ∧ (reject_job job_id comment w).1 = Ok tt
      ∧ job_status job_id (reject_job job_id comment w).2 = Some REJECTED
      ∧ status_trace job_id (log (reject_job job_id comment w).2)
        = (status_trace job_id (log w) ++ [REJECTED])%list
  | None =>
      approve_job job_id w = (Raise NoResultFound, w)
      ∧ reject_job job_id comment w = (Raise NoResultFound, w)
  end.
Proof.
  destruct (jobs w !! job_id) as [job|] eqn:Hj.
  2:{ unfold approve_job, reject_job, bind.
      by rewrite !(_update_job_status_missing _ _ _ _ Hj). }
  pose proof (approve_job_spec job_id job w Hj).
  pose proof (reject_job_spec job_id comment job w Hj).
  tauto.
Qed.

(** ** The statuses a supervisor writes *)

Section Traces.
Context (job_id : string) (w0 : World) (S : Kind → list JobStatus → bool).

Local Abbreviation trace := (λ w : World, status_trace job_id (log w)).

Lemma traces_bind_silent {A C} pre (c : M A) (k : A → M C) :
  unchanged trace c →
  S KRaise pre = true → S KBlocked pre = true →
  (∀ a, traces job_id w0 S pre (k a)) →
  traces job_id w0 S pre (bind c k).
Proof.
  intros Hc Hr Hb Hk w Hw. unfold bind. specialize (Hc w). simpl in Hc.
  destruct (c w) as [[a|e|] w1]; simpl in *.
  - apply Hk. by rewrite Hc.
  - exists pre. by rewrite Hc.
  - exists pre. by rewrite Hc.
Qed.

Lemma traces_silent {A} pre (c : M A) :
  unchanged trace c →
  S KOk pre = true → S KRaise pre = true → S KBlocked pre = true →
  traces job_id w0 S pre c.
Proof.
  intros Hc Ho Hr Hb w Hw. exists pre. rewrite (Hc w). split; [done|].
  by destruct (c w).1.
Qed.

Lemma _update_job_status_cases status error_message w :
  (∃ w', _update_job_status job_id status error_message w = (Ok tt, w')
         ∧ trace w' = (trace w ++ [status])%list)
  ∨ _update_job_status job_id status error_message w = (Raise NoResultFound, w).
Proof.
  destruct (jobs w !! job_id) as [job|] eqn:Hj.
  - left. destruct (_update_job_status_spec job_id status error_message job w Hj)
      as (w' & _ & ? & _ & _ & ?). eauto.
  - right. by apply _update_job_status_missing.
Qed.

Lemma traces_bind_update {C} pre status error_message (k : M C) :
  S KRaise pre = true →
  traces job_id w0 S (pre ++ [status])%list k →
  traces job_id w0 S pre (bind (_update_job_status job_id status error_message) (λ _, k)).
Proof.
  intros Hr Hk w Hw. unfold bind.
  destruct (_update_job_status_cases status error_message w) as [(w' & -> & Ht)| ->].
  - apply Hk. by rewrite Ht, Hw, <- app_assoc.
  - by exists pre.
Qed.

Lemma traces_update pre status error_message :
  S KRaise pre = true → S KOk (pre ++ [status])%list = true →
  traces job_id w0 S pre (_update_job_status job_id status error_message).
Proof.
  intros Hr Ho w Hw.
  destruct (_update_job_status_cases status error_message w) as [(w' & -> & Ht)| ->].
  - exists (pre ++ [status])%list. simpl. by rewrite Ht, Hw, <- app_assoc.
  - by exists pre.
Qed.

End Traces.

Ltac silent :=
  repeat first
    [ apply (unchanged__wait_for_container_with_events _ (env_frame_status_trace _))
    | apply (unchanged_happen _ (env_frame_status_trace _))
    | unchanged_step
    | progress autounfold with coroutines ];
  intros; try reflexivity;
  match goal with
  | w : World |- _ => destruct w; simpl; rewrite status_trace_app; apply app_nil_r
  end.

Lemma _execute_job_try_traces env job_id w0 :
  traces job_id w0 try_block_traces [] (_execute_job_try env job_id).
Proof.
  unfold _execute_job_try, _execute_job_step4, _execute_job_step6, _execute_job_step7.
  apply traces_bind_silent; [silent|done..|]. intros job.
  apply traces_bind_silent; [silent|done..|]. intros volume_name.
  apply traces_bind_update; [done|]. simpl.
  apply traces_bind_silent; [silent|done..|]. intros builder_container.
  apply traces_bind_silent; [silent|done..|]. intros job'.
  apply traces_bind_silent; [silent|done..|]. intros _.
  apply traces_bind_silent; [silent|done..|]. intros r.
  apply traces_bind_silent; [silent|done..|]. intros _.
  destruct (negb _).
  { apply traces_update; done. }
  apply traces_bind_update; [done|]. simpl.
  apply traces_bind_silent; [silent|done..|]. intros checker_container.
  apply traces_bind_silent; [silent|done..|]. intros job''.
  apply traces_bind_silent; [silent|done..|]. intros _.
  apply traces_bind_silent; [silent|done..|]. intros r'.
  apply traces_bind_silent; [silent|done..|]. intros _.
  apply traces_update; done.
Qed.

Lemma _execute_job_except_trace job_id e w :
  status_trace job_id (log (_execute_job_except job_id e w).2) = status_trace job_id (log w)
  ∨ status_trace job_id (log (_execute_job_except job_id e w).2)
    = (status_trace job_id (log w) ++ [FAILED])%list.
Proof.
  unfold _execute_job_except, bind, logger, modify.
  assert (status_trace job_id (log (add_log (Job_execution_failed (exn_str e)) w))
          = status_trace job_id (log w)) as Hlog.
  { destruct w; simpl. rewrite status_trace_app. apply app_nil_r. }
  destruct (_update_job_status_cases job_id FAILED (Some (exn_str e))
              (add_log (Job_execution_failed (exn_str e)) w)) as [(w' & -> & Ht)| ->]; simpl.
  - right. by rewrite Ht, Hlog.
  - by left.
Qed.

Lemma _execute_job_finally_run job_id w :
  _execute_job_finally job_id w
  = (Ok tt, set_job_events (delete job_id) (set_active_jobs (delete job_id) w)).
Proof. reflexivity. Qed.

Lemma supervisor_traces_prefix p :
  p ∈ [[]; [BUILDING]; [BUILDING; CHECKING]] →
  p ∈ supervisor_traces ∧ (p ++ [FAILED])%list ∈ supervisor_traces.
Proof.
  unfold supervisor_traces. rewrite !elem_of_cons, !elem_of_nil.
  intros [->|[->|[->|[]]]]; simpl; tauto.
Qed.

Lemma _execute_job_trace env job_id w :
  ∃ p, status_trace job_id (log (_execute_job env job_id w).2)
       = (status_trace job_id (log w) ++ p)%list
       ∧ p ∈ supervisor_traces.
Proof.
  unfold _execute_job. unfold bind at 1. unfold modify at 1. cbv beta iota.
  set (w1 := set_job_events _ w).
  assert (status_trace job_id (log w1) = status_trace job_id (log w)) as H1 by done.
  clearbody w1.
  destruct (_execute_job_try_traces env job_id w1 w1) as (p & Hp & HS).
  { by rewrite app_nil_r. }
  unfold try_finally, try_except.
  destruct (_execute_job_try env job_id w1) as [[[]|e|] w2]; simpl in Hp, HS.
  - rewrite _execute_job_finally_run. simpl.
    exists p. rewrite Hp, H1. split; [done|].
    apply bool_decide_eq_true in HS. revert HS. unfold supervisor_traces.
    rewrite !elem_of_cons. tauto.
  - pose proof (_execute_job_except_trace job_id e w2) as He.
    apply bool_decide_eq_true, supervisor_traces_prefix in HS as [Hin Hin'].
    destruct (_execute_job_except job_id e w2) as [[[]|e'|] w3];
      rewrite ?_execute_job_finally_run; simpl in *;
      (destruct He as [He|He];
       [ exists p; by rewrite He, Hp, H1
       | exists (p ++ [FAILED])%list; by rewrite He, Hp, H1, app_assoc ]).
  - simpl. exists p. rewrite Hp, H1. split; [done|].
    apply bool_decide_eq_true in HS. revert HS. unfold supervisor_traces.
    rewrite !elem_of_cons. tauto.
Qed.

(** C3 as stated does not hold: nothing checks an update against the
    current status.  J1 has failed (its Builder exited with code 2); the
    approval endpoint then takes it from [failed] to [approved] and
    [completed], two edges the state machine does not have, and the
    terminal status has changed. *)
Lemma approve_changes_terminal_status :
  job_status "J1" world_J1_failed = Some FAILED
  ∧ status_trace "J1" (log world_J1_failed) = [BUILDING; FAILED]
  ∧ (Main.approve_job "J1" true None world_J1_failed).1 = Ok "approved"
  ∧ job_status "J1" (Main.approve_job "J1" true None world_J1_failed).2 = Some COMPLETED
  ∧ status_trace "J1" (log (Main.approve_job "J1" true None world_J1_failed).2)
    = [BUILDING; FAILED; APPROVED; COMPLETED]
  ∧ follows permitted_edge PENDING [BUILDING; FAILED; APPROVED; COMPLETED] = false.
Proof. by vm_compute. Qed.

(** C3, amended.  The statuses a supervisor writes for its job are a
    prefix of building, checking, awaiting_approval, possibly ended by
    failed: they follow the permitted edges, and failed is also written
    from pending when the job fails before its Builder is spawned.  The
    update itself is unconditional: on a job that exists it sets any
    status over any status, and so do approve (approved, completed) and
    reject (rejected), also over a terminal status. *)
Theorem status_writes env job_id status error_message comment w :
  (∃ p, status_trace job_id (log (_execute_job env job_id w).2)
        = (status_trace job_id (log w) ++ p)%list
        ∧ p ∈ supervisor_traces
        ∧ follows supervisor_edge PENDING p = true)
  ∧ match jobs w !! job_id with
    | Some job =>
        job_status job_id (_update_job_status job_id status error_message w).2 = Some status
        ∧ status_trace job_id (log (approve_job job_id w).2)
          = (status_trace job_id (log w) ++ [APPROVED; COMPLETED])%list
        ∧ status_trace job_id (log (reject_job job_id comment w).2)
          = (status_trace job_id (log w) ++ [REJECTED])%list
    | None => True
    end.
Proof.
  split.
  - destruct (_execute_job_trace env job_id w) as (p & Hp & Hin).
    exists p. split_and!; [done..|].
    revert Hin. unfold supervisor_traces. rewrite !elem_of_cons, elem_of_nil.
    intros [->|[->|[->|[->|[->|[->|[->|[]]]]]]]]; reflexivity.
  - destruct (jobs w !! job_id) as [job|] eqn:Hj; [|done].
    split_and!.
    + destruct (_update_job_status_spec job_id status error_message job w Hj)
        as (w' & job' & -> & Hj' & Hs & _).
      unfold job_status. simpl. by rewrite Hj', <- Hs.
    + apply (approve_job_spec job_id job w Hj).
    + apply (reject_job_spec job_id comment job w Hj).
Qed.

(** ** The stages of a job *)

Lemma _execute_job_try_start env job_id job container_id w :
  jobs w !! job_id = Some job →
  volume_error env = None →
  builder_answer env = Spawned container_id →
  _execute_job_try env job_id w
  = _execute_job_step4 env job_id (task job) ("icarus_workspace_" ++ job_id)
      (callback_url_of job_id) container_id (builder_started job_id container_id job w).
Proof.
  intros Hj Hv Hb. destruct w; simpl in *.
  unfold _execute_job_try, create_workspace_volume, spawn_builder, _update_job_status,
    scalar_one, commit, builder_started, updated, callback_url_of, builder_of.
  rewrite Hv, Hb.
  repeat (progress (run; rewrite ?Hj, ?lookup_insert_eq)).
  by rewrite insert_insert_eq.
Qed.





Lemma first_completed_exit job_id container_id start_time timeout c exit_code rest w ev :
  job_events w !! job_id = Some ev →
  error ev = false → complete ev = false →
  containers w !! container_id = Some c →
  Docker.status c ∉ [Docker.exited; Docker.dead] →
  first_completed job_id container_id start_time timeout
    (ContainerExits container_id exit_code :: Poll :: rest) w
  = (Ok (exit_code, rest),
     set_containers (<[container_id := Docker.with_exit Docker.exited exit_code c]>) w).
Proof.
  intros Hbus Herror Hcomplete Hc Hs. destruct w; simpl in *.
  unfold container_ends, _wait_for_container, act_on_done.
  repeat (progress (simpl; run;
                    rewrite ?Hbus, ?Herror, ?Hcomplete, ?Hc, ?lookup_insert_eq,
                      ?(bool_decide_eq_false_2 _ Hs))).
  done.
Qed.


Lemma _execute_job_ok env job_id w w1 :
  _execute_job_try env job_id (supervised job_id w) = (Ok tt, w1) →
  _execute_job env job_id w = (Ok tt, left job_id w1).
Proof.
  intros Htry. unfold _execute_job. unfold bind at 1. unfold modify at 1. cbv beta iota.
  unfold try_finally, try_except.
  change (set_job_events _ w) with (supervised job_id w). rewrite Htry.
  by rewrite _execute_job_finally_run.
Qed.

Lemma first_completed_waiting job_id container_id start_time timeout naps script c ev w :
  job_events w !! job_id = Some ev →
  error ev = false → complete ev = false →
  containers w !! container_id = Some c →
  Docker.status c ∉ [Docker.exited; Docker.dead] →
  (now w + total naps - start_time ≤ timeout * 1000000)%Z →
  first_completed job_id container_id start_time timeout (waiting naps ++ script) w
  = first_completed job_id container_id start_time timeout script
      (set_now (λ t, t + total naps) w).
Proof.
  revert w. induction naps as [|nap naps IH]; intros w Hbus Herror Hcomplete Hc Hs Ht.
  { destruct w; simpl. unfold set_now, total. simpl. by rewrite Z.add_0_r. }
  assert (total (nap :: naps) = (Z.of_N nap + total naps)%Z) as Htot.
  { unfold total. simpl. lia. }
  assert (0 ≤ total naps)%Z by (unfold total; lia).
  rewrite Htot in Ht.
  change (waiting (nap :: naps) ++ script)%list
    with (Elapse nap :: Poll :: (waiting naps ++ script))%list.
  transitivity (first_completed job_id container_id start_time timeout
                  (waiting naps ++ script) (set_now (λ t, t + Z.of_N nap) w)).
  - destruct w; simpl in *. unfold _wait_for_container.
    repeat (progress (simpl; run;
                      rewrite ?Hbus, ?Herror, ?Hcomplete, ?Hc,
                        ?(bool_decide_eq_false_2 _ Hs))).
    replace (timeout * 1000000 <? now0 + Z.of_N nap - start_time)%Z with false
      by (symmetry; apply Z.ltb_ge; lia).
    done.
  - rewrite IH; [|by destruct w..| destruct w; simpl in *; lia].
    destruct w; simpl. unfold set_now. simpl. rewrite Htot.
    by rewrite Z.add_assoc.
Qed.


(** ** The events around a supervisor always return *)

Lemma pause_listed_ok l p w : ∃ p', (pause_listed l p w).1 = Ok p'.
Proof.
  revert p w. induction l as [|[cid c] l IH]; intros p w; simpl; [by eexists|].
  destruct (decide (Docker.status c = Docker.running)); [|apply IH].
  unfold bind at 1.
  assert (∃ w', pause_container cid w = (Ok tt, w')) as [w' ->]; [|apply IH].
  destruct w. unfold pause_container. run.
  destruct (containers0 !! cid) as [c'|]; [|by eexists].
  destruct (decide (Docker.status c' = Docker.running)); by eexists.
Qed.

Lemma _monitor_loop_ok h w : (_monitor_loop h w).1 = Ok tt.
Proof.
  destruct w as [? ? ? ? ? ? ? ? [self|] ? ?]; [|done].
  unfold _monitor_loop, _check_resources, _trigger_red_alert, _clear_alerts,
    _trigger_yellow_alert, containers_list. run.
  destruct h as [cpu ram|msg]; unfold get_system_stats; run;
    repeat match goal with
    | |- context [if ?b then _ else _] => destruct b eqn:?; run
    end; try done;
    match goal with
    | |- context [pause_listed ?l ?p ?W] =>
        destruct (pause_listed_ok l p W) as [p' Hp];
        destruct (pause_listed l p W) as [[?|?|] ?]; simpl in Hp; by simplify_eq
    | |- context [resume_all ?l ?W] =>
        pose proof (resume_all_ok l W) as Hr;
        destruct (resume_all l W) as [[?|?|] ?]; simpl in Hr; by simplify_eq
    end.
Qed.

Lemma agent_callback_returns job_id data w : (agent_callback job_id data w).1 ≠ Blocked.
Proof.
  unfold agent_callback, try_except.
  rewrite new_Telemetry_cpu_usage, new_AuditLog_audit_report, !bind_raise.
  unfold set_error_signal, set_complete_signal, when, bind, raise, ret, modify.
  repeat match goal with
  | |- context [if ?b then _ else _] => destruct b; simpl
  end; done.
Qed.

Lemma _collect_telemetry_ok job_id container_id w :
  ∃ step, (_collect_telemetry job_id container_id w).1 = Ok step.
Proof.
  unfold _collect_telemetry, try_except, bind, gets.
  destruct (containers w !! container_id) as [c|]; cbv beta iota; [|by eexists].
  destruct (negb _); cbv beta iota; [by eexists|].
  rewrite new_Telemetry_cpu_usage. simpl. by eexists.
Qed.

Lemma happens_ok e w : (happens e w).1 = Ok tt.
Proof.
  destruct e as [us|cid code|cid code|cid|job payload|job cid|h|]; simpl; try done.
  - unfold try_except, bind.
    pose proof (agent_callback_returns job payload w) as H.
    by destruct (agent_callback job payload w) as [[?|?|] ?].
  - unfold bind. destruct (_collect_telemetry_ok job cid w) as [step H].
    destruct (_collect_telemetry job cid w) as [[?|?|] ?]; simpl in H; by simplify_eq.
  - apply _monitor_loop_ok.
Qed.

Lemma happen_ok script w : (happen script w).1 = Ok tt.
Proof.
  revert w. induction script as [|e script IH]; intros w; [done|].
  simpl. unfold bind. pose proof (happens_ok e w) as H.
  destruct (happens e w) as [[[]|?|] w']; simpl in H; [apply IH|done..].
Qed.

(** ** A Builder that exits with a code other than zero *)

Lemma checker_spawns_app l1 l2 :
  checker_spawns (l1 ++ l2) = (checker_spawns l1 ++ checker_spawns l2)%list.
Proof. induction l1 as [|[] l1 IH]; simpl; by rewrite ?IH. Qed.

Lemma env_frame_checker_spawns : env_frame (λ w, checker_spawns (log w)).
Proof.
  split_and!; try done. intros l w Hl. destruct w; simpl.
  rewrite checker_spawns_app. destruct l; simpl; try apply app_nil_r. done.
Qed.

Lemma running_not_ended : Docker.running ∉ [Docker.exited; Docker.dead].
Proof. rewrite !elem_of_cons, elem_of_nil. by intros [|[|]]. Qed.

Lemma builder_started_facts job_id container_id job w :
  jobs (builder_started job_id container_id job (supervised job_id w)) !! job_id
  = Some (with_builder_container_id (Some container_id) (updated BUILDING None (now w) job))
  ∧ job_events (builder_started job_id container_id job (supervised job_id w)) !! job_id
    = Some new_events
  ∧ containers (builder_started job_id container_id job (supervised job_id w)) !! container_id
    = Some (builder_of job_id)
  ∧ status_trace job_id (log (builder_started job_id container_id job (supervised job_id w)))
    = (status_trace job_id (log w) ++ [BUILDING])%list
  ∧ checker_spawns (log (builder_started job_id container_id job (supervised job_id w)))
    = checker_spawns (log w).
Proof.
  destruct w; simpl. rewrite !lookup_insert_eq. split_and!; try done.
  - rewrite !status_trace_app. simpl. rewrite bool_decide_eq_true_2 by done.
    by rewrite !app_nil_r.
  - rewrite !checker_spawns_app. simpl. by rewrite !app_nil_r.
Qed.

Lemma env_frame_volumes : env_frame volumes.
Proof. by repeat split. Qed.

Lemma _execute_job_builder_failure env job_id job container_id naps exit_code rest w :
  jobs w !! job_id = Some job →
  volume_error env = None →
  builder_answer env = Spawned container_id →
  builder_script env
  = (waiting naps ++ ContainerExits container_id exit_code :: Poll :: rest)%list →
  (total naps ≤ 600 * 1000000)%Z →
  exit_code ≠ 0 →
  ∃ w', _execute_job env job_id w = (Ok tt, w')
        ∧ job_status job_id w' = Some FAILED
        ∧ job_error_message job_id w'
          = Some ("Builder exited with non-zero code: " ++ Py.str_int exit_code)
        ∧ status_trace job_id (log w') = (status_trace job_id (log w) ++ [BUILDING; FAILED])%list
        ∧ checker_spawns (log w') = checker_spawns (log w)
        ∧ volumes w' = {["icarus_workspace_" ++ job_id]} ∪ volumes w.
Proof.
  intros Hj Hv Hb Hscript Hnaps Hcode.
  destruct (builder_started_facts job_id container_id job w)
    as (Hj1 & Hbus1 & Hc1 & Ht1 & Hs1).
  assert (volumes (builder_started job_id container_id job (supervised job_id w))
          = {["icarus_workspace_" ++ job_id]} ∪ volumes w) as Hv1 by by destruct w.
  set (w1 := builder_started job_id container_id job (supervised job_id w)) in *.
  assert (_execute_job_try env job_id (supervised job_id w)
          = _execute_job_step4 env job_id (task job) ("icarus_workspace_" ++ job_id)
              (callback_url_of job_id) container_id w1) as Htry.
  { by apply _execute_job_try_start. }
  clearbody w1.
  set (w2 := set_containers
               (<[container_id := Docker.with_exit Docker.exited exit_code
                                    (builder_of job_id)]>)
               (set_now (λ t, t + total naps) w1)).
  assert (_wait_for_container_with_events job_id container_id (builder_script env) w1
          = (Ok (exit_code, rest), w2)) as Hwait.
  { unfold _wait_for_container_with_events, utcnow, bind, gets. rewrite Hbus1, Hscript.
    cbv beta iota zeta.
    rewrite (first_completed_waiting _ _ _ _ _ _ (builder_of job_id) new_events);
      [|done..|apply running_not_ended|lia].
    apply (first_completed_exit _ _ _ _ _ _ _ _ new_events);
      [by destruct w1..|apply running_not_ended]. }
  pose proof (happen_ok rest w2) as Hok.
  pose proof (unchanged_happen jobs env_frame_jobs rest w2) as Hj3.
  pose proof (unchanged_happen _ (env_frame_status_trace job_id) rest w2) as Ht3.
  pose proof (unchanged_happen _ env_frame_checker_spawns rest w2) as Hs3.
  pose proof (unchanged_happen volumes env_frame_volumes rest w2) as Hv3.
  destruct (happen rest w2) as [r w3] eqn:Hh. simpl in *. subst r.
  assert (jobs w3 !! job_id
          = Some (with_builder_container_id (Some container_id)
                    (updated BUILDING None (now w) job))) as Hjob3.
  { rewrite Hj3. subst w2. by destruct w1. }
  eexists. split.
  { apply _execute_job_ok. rewrite Htry. unfold _execute_job_step4, bind.
    rewrite Hwait. simpl. rewrite Hh.
    replace (exit_code =? 0)%Z with false by (symmetry; by apply Z.eqb_neq).
    simpl. by apply _update_job_status_run. }
  destruct w3; simpl in *. unfold job_status, job_error_message. simpl.
  rewrite lookup_insert_eq. simpl. split_and!; try done.
  - rewrite status_trace_updated, Ht3. subst w2. destruct w1; simpl in *.
    by rewrite Ht1, <- app_assoc.
  - rewrite checker_spawns_app, Hs3. subst w2. destruct w1; simpl in *.
    by rewrite Hs1, app_nil_r.
  - rewrite Hv3. subst w2. by destruct w1.
Qed.




(** ** The stage timeout *)








(** ** The three-way wait *)







(** ** Cleanup *)

(** C1.  The claim is that every exit path of a job stops its containers
    and releases its workspace volume.  [approve_job] and [reject_job] do
    so, but the supervisor does not: its [finally] clause only drops the
    job from [active_jobs] and [job_events].  When the Builder of J1 exits
    with code 2 the job is failed and its exited container and its volume
    are still there; after an error callback the Builder is still
    running; after a timeout the container has been stopped by the waiter
    but the volume is still there.  On the approval and rejection paths
    nothing is left.  For every job whose Builder exits with a code other
    than zero the supervisor returns with the job failed and the volume
    of the job still in the daemon. *)
Theorem failed_job_keeps_container_and_volume :
  job_status "J1" world_J1_failed = Some FAILED
  ∧ (Docker.status <$> containers world_J1_failed !! "b1") = Some Docker.exited
  ∧ elements (volumes world_J1_failed) = ["icarus_workspace_J1"]
  ∧ log world_J1_failed
    = [Created_workspace_volume "icarus_workspace_J1";
       Job_status_updated "J1" BUILDING;
       Spawned_Builder_container "b1";
       Job_status_updated "J1" FAILED]
  ∧ job_status "J1" world_J1_error = Some FAILED
  ∧ (Docker.status <$> containers world_J1_error !! "b1") = Some Docker.running
  ∧ elements (volumes world_J1_error) = ["icarus_workspace_J1"]
  ∧ job_status "J1" world_J1_timeout = Some FAILED
  ∧ containers world_J1_timeout !! "b1" = None
  ∧ elements (volumes world_J1_timeout) = ["icarus_workspace_J1"]
  ∧ job_status "J1" world_J1_approved = Some COMPLETED
  ∧ map_to_list (containers world_J1_approved) = []
  ∧ elements (volumes world_J1_approved) = []
  ∧ job_status "J1" world_J1_rejected = Some REJECTED
  ∧ map_to_list (containers world_J1_rejected) = []
  ∧ elements (volumes world_J1_rejected) = []
  ∧ (∀ env job_id job container_id naps exit_code rest w,
       jobs w !! job_id = Some job →
       volume_error env = None →
       builder_answer env = Spawned container_id →
       builder_script env
       = (waiting naps ++ ContainerExits container_id exit_code :: Poll :: rest)%list →
       (total naps ≤ 600 * 1000000)%Z →
       exit_code ≠ 0 →
       ∃ w', _execute_job env job_id w = (Ok tt, w')
             ∧ job_status job_id w' = Some FAILED
             ∧ "icarus_workspace_" ++ job_id ∈ volumes w').
Proof.
  split_and!; [by vm_compute..|].
  intros env job_id job cid naps code rest w Hj Hv Hb Hscript Hnaps Hcode.
  destruct (_execute_job_builder_failure env job_id job cid naps code rest w)
    as (w' & Hrun & Hs & _ & _ & _ & Hvol); try done.
  exists w'. split_and!; [done..|]. rewrite Hvol. by apply elem_of_union_l, elem_of_singleton.
Qed.

(** * More of the sentinel *)

Lemma ge_max_iff (cpu ram threshold : Q) :
  Py.ge (Py.max cpu ram) threshold = true ↔ load_reaches threshold cpu ram.
Proof.
  unfold Py.ge, Py.max, load_reaches.
  destruct (Qle_bool ram cpu) eqn:E; rewrite Qle_bool_iff.
  - apply Qle_bool_iff in E. split; [auto|]. intros [H|H]; [done|].
    by apply (Qle_trans _ ram).
  - assert (cpu < ram)%Q as Hlt.
    { apply Qnot_le_lt. intros H. apply Qle_bool_iff in H. congruence. }
    split; [auto|]. intros [H|H]; [|done].
    apply (Qle_trans _ cpu); [done|]. by apply Qlt_le_weak.
Qed.

Lemma ge_max_false (cpu ram threshold : Q) :
  Py.ge (Py.max cpu ram) threshold = false ↔ ¬ load_reaches threshold cpu ram.
Proof. rewrite <- ge_max_iff. by destruct (Py.ge _ _). Qed.

(** X1.  The level of the sentinel after a poll that measured the host.
    It is RED when CPU or RAM reaches the red threshold.  Below the red
    threshold, with CPU or RAM at the yellow threshold or above, a GREEN
    sentinel becomes YELLOW and a YELLOW or RED one stays as it is, and
    the daemon is not touched: a RED sentinel is not cleared before the
    load is below the yellow threshold.  Below both thresholds it is
    GREEN.  The thresholds are compared with [>=]: a load equal to a
    threshold reaches it.  A poll always returns. *)
Theorem sentinel_level_after_poll cpu ram self w :
  ∃ self' w',
    _check_resources (Measured cpu ram) self w = (Ok self', w')
    ∧ yellow_threshold self' = yellow_threshold self
    ∧ red_threshold self' = red_threshold self
    ∧ (load_reaches (red_threshold self) cpu ram → current_alert self' = RED)
    ∧ (¬ load_reaches (red_threshold self) cpu ram →
       load_reaches (yellow_threshold self) cpu ram →
       current_alert self' = match current_alert self with GREEN => YELLOW | a => a end
       ∧ containers w' = containers w
       ∧ paused_containers self' = paused_containers self)
    ∧ (¬ load_reaches (red_threshold self) cpu ram →
       ¬ load_reaches (yellow_threshold self) cpu ram →
       current_alert self' = GREEN).
Proof.
  destruct self as [yt rt pi alert dm paused]. destruct w.
  unfold _check_resources, get_system_stats, _trigger_red_alert, _clear_alerts,
    _trigger_yellow_alert, containers_list.
  run.
  destruct (Py.ge (Py.max cpu ram) rt) eqn:Hr.
  - apply ge_max_iff in Hr.
    destruct alert; simpl.
    + destruct dm; run.
      * match goal with
        | |- context [pause_listed ?l ?p ?W] =>
            destruct (pause_listed_ok l p W) as [p' Hp];
            destruct (pause_listed l p W) as [[?|?|] w'] eqn:E; simpl in Hp; simplify_eq
        end.
        eexists _, _. split; [reflexivity|]. simpl. tauto.
      * eexists _, _. split; [reflexivity|]. simpl. tauto.
    + destruct dm; run.
      * match goal with
        | |- context [pause_listed ?l ?p ?W] =>
            destruct (pause_listed_ok l p W) as [p' Hp];
            destruct (pause_listed l p W) as [[?|?|] w'] eqn:E; simpl in Hp; simplify_eq
        end.
        eexists _, _. split; [reflexivity|]. simpl. tauto.
      * eexists _, _. split; [reflexivity|]. simpl. tauto.
    + eexists _, _. split; [reflexivity|]. simpl. tauto.
  - apply ge_max_false in Hr.
    destruct (Py.ge (Py.max cpu ram) yt) eqn:Hy.
    + apply ge_max_iff in Hy.
      destruct alert; simpl; eexists _, _; (split; [reflexivity|]); simpl; tauto.
    + apply ge_max_false in Hy.
      destruct alert; simpl.
      * eexists _, _. split; [reflexivity|]. simpl. tauto.
      * eexists _, _. split; [reflexivity|]. simpl. tauto.
      * destruct (bool_decide (paused = [])); simpl.
        { eexists _, _. split; [reflexivity|]. simpl. tauto. }
        destruct dm; simpl.
        -- match goal with
           | |- context [resume_all ?l ?W] =>
               pose proof (resume_all_ok l W) as Hok;
               destruct (resume_all l W) as [[[]|?|] w'] eqn:E; simpl in Hok; simplify_eq
           end.
           eexists _, _. split; [reflexivity|]. simpl. tauto.
        -- eexists _, _. split; [reflexivity|]. simpl. tauto.
Qed.

(** X2.  The sentinel acts on a change of level only.  A poll that
    measured the host and leaves the level as it was changes nothing: no
    container is paused or resumed and nothing is logged.  So a container
    that starts to run while the sentinel is RED is not paused by the
    polls that follow. *)
Theorem poll_without_change_of_level_does_nothing cpu ram self w self' w' :
  _check_resources (Measured cpu ram) self w = (Ok self', w') →
  current_alert self' = current_alert self →
  self' = self ∧ w' = w.
Proof.
  destruct self as [yt rt pi alert dm paused]. destruct w.
  unfold _check_resources, get_system_stats, _trigger_red_alert, _clear_alerts,
    _trigger_yellow_alert, containers_list.
  run.
  destruct (Py.ge (Py.max cpu ram) rt); [|destruct (Py.ge (Py.max cpu ram) yt)];
    destruct alert; simpl; run;
    repeat match goal with
    | |- context [if ?b then _ else _] => destruct b; simpl; run
    | |- context [pause_listed ?l ?p ?W] => destruct (pause_listed l p W) as [[?|?|] ?]; simpl
    | |- context [resume_all ?l ?W] => destruct (resume_all l W) as [[[]|?|] ?]; simpl
    end;
    intros Hrun Hlevel; simplify_eq; done.
Qed.

Lemma poll_without_change_of_level_does_nothing_witness :
  monitor_paused = monitor_paused ∧ world_paused = world_paused.
Proof.
  apply (poll_without_change_of_level_does_nothing 95%Q 40%Q monitor_paused world_paused);
    reflexivity.
Defined.

Lemma pause_container_running container_id c w :
  containers w !! container_id = Some c →
  Docker.status c = Docker.running →
  pause_container container_id w
  = (Ok tt, add_log (Paused_container container_id)
              (set_containers (<[container_id := Docker.with_status Docker.paused c]>) w)).
Proof.
  intros Hc Hs. destruct w; simpl in *. unfold pause_container. run.
  rewrite Hc. by destruct (decide _).
Qed.

Lemma pause_listed_spec l p w :
  NoDup l.*1 →
  (∀ container_id c, (container_id, c) ∈ l →
     containers w !! container_id = Some c ∧ Docker.status c = Docker.running) →
  ∃ w', pause_listed l p w = (Ok (p ++ l.*1)%list, w')
        ∧ ∀ container_id,
            containers w' !! container_id
            = if bool_decide (container_id ∈ l.*1)
              then Docker.with_status Docker.paused <$> containers w !! container_id
              else containers w !! container_id.
Proof.
  revert p w. induction l as [|[x c] l IH]; intros p w Hnd Hl.
  { exists w. simpl. rewrite app_nil_r. by split. }
  rewrite fmap_cons in Hnd |- *. cbn [fst] in *.
  apply NoDup_cons in Hnd as [Hx Hnd].
  destruct (Hl x c) as [Hc Hs]; [apply elem_of_cons; auto|].
  cbn [pause_listed]. destruct (decide (Docker.status c = Docker.running)); [|done].
  unfold bind at 1. rewrite (pause_container_running x c w Hc Hs).
  set (w1 := add_log _ _).
  assert (containers w1 = <[x := Docker.with_status Docker.paused c]> (containers w)) as Hw1
    by by destruct w.
  clearbody w1.
  destruct (IH (p ++ [x])%list w1 Hnd) as (w' & -> & Hw').
  { intros cid c' Hin. destruct (Hl cid c') as [Hc' Hs']; [apply elem_of_cons; auto|].
    split; [|done]. rewrite Hw1, lookup_insert_ne; [done|].
    intros ->. apply Hx. apply list_elem_of_fmap. by exists (cid, c'). }
  exists w'. rewrite <- app_assoc. split; [done|]. intros cid. rewrite Hw', Hw1.
  destruct (decide (cid = x)) as [->|Hne].
  - rewrite (bool_decide_eq_false_2 _ Hx), lookup_insert_eq, Hc.
    by rewrite bool_decide_eq_true_2 by (apply elem_of_cons; auto).
  - rewrite lookup_insert_ne by done.
    rewrite (bool_decide_ext (cid ∈ (x :: l.*1)) (cid ∈ l.*1)); [done|].
    rewrite elem_of_cons. tauto.
Qed.

Lemma containers_list_spec name_part w :
  let l := filter (λ p, Docker.status p.2 = Docker.running
                        ∧ Py.contains name_part (Docker.name p.2) = true)
                  (map_to_list (containers w)) in
  containers_list name_part w = (Ok l, w)
  ∧ NoDup l.*1
  ∧ (∀ container_id c,
       (container_id, c) ∈ l
       ↔ containers w !! container_id = Some c ∧ Docker.status c = Docker.running
         ∧ Py.contains name_part (Docker.name c) = true).
Proof.
  intros l. split_and!; [done|..].
  - apply (sublist_NoDup _ (map_to_list (containers w)).*1);
      [apply NoDup_fst_map_to_list|].
    apply fmap_sublist, sublist_filter.
  - intros cid c. unfold l. rewrite list_elem_of_filter, elem_of_map_to_list. simpl. tauto.
Qed.

Lemma to_pause_true c :
  to_pause c = true
  ↔ Docker.status c = Docker.running ∧ Py.contains "icarus_" (Docker.name c) = true.
Proof. unfold to_pause. by rewrite andb_true_iff, bool_decide_eq_true. Qed.

Lemma _trigger_red_alert_spec self stats w :
  docker_manager self = true →
  ∃ l w',
    _trigger_red_alert self stats w
    = (Ok (with_paused_containers (paused_containers self ++ l)%list self), w')
    ∧ (∀ container_id, container_id ∈ l ↔ ∃ c, containers w !! container_id = Some c
                                               ∧ to_pause c = true)
    ∧ (∀ container_id, containers w' !! container_id
                       = paused_by_alert (containers w) container_id).
Proof.
  intros Hdm. unfold _trigger_red_alert. rewrite Hdm.
  unfold bind at 1, logger, modify. cbv beta iota.
  destruct (containers_list_spec "icarus_" (add_log RED_ALERT w)) as (Hl & Hnd & Hin).
  unfold bind at 1. rewrite Hl. cbv beta iota.
  set (l := filter _ _) in *. clearbody l.
  destruct (pause_listed_spec l (paused_containers self) (add_log RED_ALERT w) Hnd)
    as (w' & Hp & Hw').
  { intros cid c H. apply Hin in H. tauto. }
  unfold bind. rewrite Hp. exists l.*1, w'. split; [done|].
  assert (∀ cid, cid ∈ l.*1 ↔ ∃ c, containers w !! cid = Some c ∧ to_pause c = true) as Hmem.
  { intros cid. rewrite list_elem_of_fmap. split.
    - intros ([cid' c] & -> & H). apply Hin in H. exists c. rewrite to_pause_true.
      by destruct w.
    - intros (c & Hc & H). apply to_pause_true in H. exists (cid, c). split; [done|].
      apply Hin. by destruct w. }
  split; [done|]. intros cid. rewrite Hw'. unfold paused_by_alert.
  replace (containers (add_log RED_ALERT w)) with (containers w) by by destruct w.
  case_bool_decide as H.
  - apply Hmem in H as (c & -> & ->). done.
  - destruct (containers w !! cid) as [c|] eqn:Hc; [|done].
    destruct (to_pause c) eqn:Ht; [|done]. destruct H. apply Hmem. eauto.
Qed.

(** X3.  When the sentinel enters RED it pauses the running containers
    whose name has the part [icarus_], all of them and no other container,
    and adds their ids to the ids it remembers; the containers that are
    not running and the containers of others are left as they are.  With
    no Docker manager it pauses nothing. *)
Theorem red_alert_pauses_running_icarus_containers self stats w :
  ∃ self' w',
    _trigger_red_alert self stats w = (Ok self', w')
    ∧ if docker_manager self
      then (∀ container_id,
              containers w' !! container_id = paused_by_alert (containers w) container_id)
           ∧ (∀ container_id,
                container_id ∈ paused_containers self'
                ↔ container_id ∈ paused_containers self
                  ∨ ∃ c, containers w !! container_id = Some c ∧ to_pause c = true)
      else self' = self ∧ containers w' = containers w.
Proof.
  destruct (docker_manager self) eqn:Hdm.
  - destruct (_trigger_red_alert_spec self stats w Hdm) as (l & w' & Hrun & Hl & Hw').
    exists (with_paused_containers (paused_containers self ++ l)%list self), w'.
    split_and!; [done..|]. intros cid. simpl. rewrite elem_of_app, Hl. tauto.
  - unfold _trigger_red_alert. rewrite Hdm. eexists _, _. split; [reflexivity|].
    by destruct w.
Qed.

Lemma resumed_paused_by_alert l cs container_id :
  (∀ container_id, container_id ∈ l ↔ ∃ c, cs !! container_id = Some c ∧ to_pause c = true) →
  ∀ cs', (∀ container_id, cs' !! container_id = paused_by_alert cs container_id) →
  resumed l cs' container_id = cs !! container_id.
Proof.
  intros Hl cs' Hcs'. unfold resumed. rewrite Hcs'. unfold paused_by_alert.
  destruct (cs !! container_id) as [c|] eqn:Hc; [|done].
  destruct (to_pause c) eqn:Ht.
  - rewrite bool_decide_eq_true_2 by (apply Hl; eauto). simpl.
    apply to_pause_true in Ht as [Hs _]. destruct c; simpl in *. by subst.
  - rewrite bool_decide_eq_false_2; [done|].
    intros (c' & Hc' & Ht')%Hl. congruence.
Qed.

(** X4.  A RED alert and its end leave the daemon as it was.  A sentinel
    that is not RED and remembers no container, with its Docker manager,
    polls a load at the red threshold or above, and at its next poll a
    load below both thresholds, while nothing else touches the
    containers: it is GREEN again, it remembers no container, and every
    container is in the state it had before the alert. *)
Theorem red_alert_round_trip cpu ram cpu' ram' self w :
  docker_manager self = true →
  current_alert self ≠ RED →
  paused_containers self = [] →
  load_reaches (red_threshold self) cpu ram →
  ¬ load_reaches (red_threshold self) cpu' ram' →
  ¬ load_reaches (yellow_threshold self) cpu' ram' →
  ∃ self1 w1 self2 w2,
    _check_resources (Measured cpu ram) self w = (Ok self1, w1)
    ∧ current_alert self1 = RED
    ∧ _check_resources (Measured cpu' ram') self1 w1 = (Ok self2, w2)
    ∧ current_alert self2 = GREEN
    ∧ paused_containers self2 = []
    ∧ containers w2 = containers w
    ∧ jobs w2 = jobs w ∧ volumes w2 = volumes w.
Proof.
  intros Hdm Halert Hpaused Hred Hred' Hyellow'.
  apply ge_max_iff in Hred. apply ge_max_false in Hred', Hyellow'.
  destruct (_trigger_red_alert_spec self (mkSystemStats cpu ram) w Hdm)
    as (l & w1 & Hrun & Hl & Hw1).
  assert (jobs w1 = jobs w ∧ volumes w1 = volumes w) as [Hj1 Hv1].
  { revert Hrun. unfold _trigger_red_alert. rewrite Hdm.
    unfold bind, logger, modify, containers_list, gets. cbv beta iota.
    match goal with
    | |- context [pause_listed ?l ?p ?W] =>
        pose proof (unchanged_pause_listed jobs env_frame_jobs l p W) as Hj;
        pose proof (unchanged_pause_listed volumes env_frame_volumes l p W) as Hv;
        destruct (pause_listed l p W) as [[?|?|] ?]
    end; unfold ret; intros; simplify_eq. simpl in Hj, Hv. rewrite Hj, Hv. by destruct w. }
  rewrite Hpaused in Hrun. simpl in Hrun.
  set (self1 := with_current_alert RED (with_paused_containers l self)).
  assert (_check_resources (Measured cpu ram) self w = (Ok self1, w1)) as Hrun1.
  { unfold _check_resources, get_system_stats. unfold bind at 1, ret at 1.
    cbv beta iota zeta. cbn [cpu_percent ram_percent]. rewrite Hred.
    rewrite bool_decide_eq_false_2 by done. simpl. unfold bind. by rewrite Hrun. }
  assert (∃ w2, _check_resources (Measured cpu' ram') self1 w1
                = (Ok (with_current_alert GREEN (with_paused_containers [] self1)), w2)
                ∧ (∀ cid, containers w2 !! cid = resumed l (containers w1) cid)
                ∧ jobs w2 = jobs w1 ∧ volumes w2 = volumes w1) as (w2 & Hrun2 & Hw2 & Hj2 & Hv2).
  { unfold _check_resources, get_system_stats. unfold bind at 1, ret at 1.
    cbv beta iota zeta. cbn [cpu_percent ram_percent].
    replace (red_threshold self1) with (red_threshold self) by by destruct self.
    replace (yellow_threshold self1) with (yellow_threshold self) by by destruct self.
    rewrite Hred', Hyellow'. simpl.
    unfold _clear_alerts, bind, logger, modify. cbv beta iota.
    replace (current_alert self1) with RED by done.
    replace (paused_containers self1) with l by done.
    replace (docker_manager self1) with true by done.
    rewrite bool_decide_eq_true_2 by done. cbn [andb].
    destruct (decide (l = [])) as [->|Hne].
    - rewrite bool_decide_eq_true_2 by done. cbn [negb andb]. unfold ret.
      eexists. split; [by destruct self|]. split_and!; try by destruct w1.
      intros cid. unfold resumed. destruct w1; simpl. by destruct (_ !! cid).
    - rewrite bool_decide_eq_false_2 by done. cbn [negb andb].
      match goal with
      | |- context [resume_all ?l ?W] =>
          pose proof (resume_all_ok l W) as Hok;
          pose proof (λ cid, resume_all_lookup l W cid) as Hlook;
          pose proof (unchanged_resume_all jobs env_frame_jobs l W) as Hj;
          pose proof (unchanged_resume_all volumes env_frame_volumes l W) as Hv;
          destruct (resume_all l W) as [[[]|?|] w2]; simpl in Hok, Hlook, Hj, Hv; try done
      end.
      unfold ret. eexists. split; [by destruct self|]. split_and!; by destruct w1. }
  exists self1, w1, (with_current_alert GREEN (with_paused_containers [] self1)), w2.
  split_and!; try done; try congruence.
  apply map_eq. intros cid. rewrite Hw2.
  by apply (resumed_paused_by_alert l (containers w) cid Hl).
Qed.

Lemma red_alert_round_trip_witness :
  ∃ self1 w1 self2 w2,
    _check_resources (Measured 95%Q 40%Q) default_monitor world_builder_running
    = (Ok self1, w1)
    ∧ current_alert self1 = RED
    ∧ _check_resources (Measured 20%Q 40%Q) self1 w1 = (Ok self2, w2)
    ∧ current_alert self2 = GREEN
    ∧ paused_containers self2 = []
    ∧ containers w2 = containers world_builder_running
    ∧ jobs w2 = jobs world_builder_running ∧ volumes w2 = volumes world_builder_running.
Proof.
  apply (red_alert_round_trip 95%Q 40%Q 20%Q 40%Q default_monitor world_builder_running);
    try reflexivity; try discriminate; vm_compute; intuition discriminate.
Defined.

(** * More of the admission loop *)

Lemma env_frame_active_jobs : env_frame active_jobs.
Proof. by repeat split. Qed.

Lemma env_frame_queue : env_frame queue.
Proof. by repeat split. Qed.

Lemma _process_queue_spec h w :
  match queue w with
  | [] => _process_queue h w = (Blocked, w)
  | job_id :: rest =>
      ∃ r w', _process_queue h w = (Ok r, w')
        ∧ jobs w' = jobs w ∧ containers w' = containers w ∧ volumes w' = volumes w
        ∧ job_events w' = job_events w
        ∧ if decide (max_concurrent ≤ size (active_jobs w))%nat
          then r = Requeued job_id 5 ∧ w' = set_queue (λ _, (rest ++ [job_id])%list) w
          else (r = Requeued job_id 10
                ∧ queue w' = (rest ++ [job_id])%list ∧ active_jobs w' = active_jobs w)
               ∨ (r = Dispatched job_id
                  ∧ queue w' = rest ∧ active_jobs w' = <[job_id := now w]> (active_jobs w))
  end.
Proof.
  destruct w as [? ? ? ? ? q a ? s ? ?]. simpl.
  destruct q as [|job_id rest]; [done|].
  unfold _process_queue, queue_put, get_system_stats. run.
  destruct (decide (max_concurrent ≤ size a)%nat) as [Hcap|Hcap].
  - rewrite (proj2 (Nat.leb_le _ _) Hcap). by eexists _, _.
  - rewrite (proj2 (Nat.leb_gt _ _)) by lia.
    destruct s as [self|]; [|eexists _, _; split; [reflexivity|]; simpl; auto 10].
    destruct h as [cpu ram|msg]; run.
    + destruct (Py.ge _ _); eexists _, _; (split; [reflexivity|]); simpl; auto 10.
    + eexists _, _; split; [reflexivity|]; simpl; auto 10.
Qed.

(** X5.  A turn of the admission loop moves one job id and loses none.
    With an empty queue the loop waits and changes nothing.  Otherwise it
    takes the id at the head.  With [max_concurrent] jobs in flight or
    more it puts the id back at the end of the queue, sleeps 5 s, and
    does not sample the host: nothing else changes.  Below the cap the
    id either goes back to the end of the queue (sleep of 10 s) and the
    jobs in flight are the same, or it leaves the queue and is in flight
    with the time of the dispatch.  The order of the other ids in the
    queue is kept, and the tables, the daemon and the signals are not
    touched. *)
Theorem admission_moves_one_job h w :
  match queue w with
  | [] => _process_queue h w = (Blocked, w)
  | job_id :: rest =>
      ∃ r w', _process_queue h w = (Ok r, w')
        ∧ jobs w' = jobs w ∧ containers w' = containers w ∧ volumes w' = volumes w
        ∧ job_events w' = job_events w
        ∧ if decide (max_concurrent ≤ size (active_jobs w))%nat
          then r = Requeued job_id 5 ∧ w' = set_queue (λ _, (rest ++ [job_id])%list) w
          else (r = Requeued job_id 10
                ∧ queue w' = (rest ++ [job_id])%list ∧ active_jobs w' = active_jobs w)
               ∨ (r = Dispatched job_id
                  ∧ queue w' = rest ∧ active_jobs w' = <[job_id := now w]> (active_jobs w))
  end.
Proof. apply _process_queue_spec. Qed.

(** The supervisor of a job gives its slot back, and only its slot, when
    it returns; while it is suspended it holds it. *)
Lemma _execute_job_active_jobs env job_id w :
  active_jobs (_execute_job env job_id w).2
  = match (_execute_job env job_id w).1 with
    | Blocked => active_jobs w
    | _ => delete job_id (active_jobs w)
    end.
Proof.
  assert (unchanged active_jobs
            (try_except (_execute_job_try env job_id) (_execute_job_except job_id))) as Htry.
  { unfold _execute_job_try, _execute_job_step4, _execute_job_step6,
      _execute_job_step7, _execute_job_except.
    tables env_frame_active_jobs. }
  unfold _execute_job, bind, modify, try_finally. cbv beta iota.
  match goal with
  | |- context [try_except ?c ?h ?W] =>
      specialize (Htry W); destruct (try_except c h W) as [[[]|e|] w1]
  end; simpl in *; by rewrite ?Htry.
Qed.

Lemma active_jobs_operate op w :
  (size (active_jobs w) ≤ max_concurrent)%nat →
  (size (active_jobs (operate op w)) ≤ max_concurrent)%nat.
Proof.
  intros Hcap.
  destruct op as [uuid task path|h|env job_id|job_id approved comment|e]; simpl.
  - by destruct w.
  - pose proof (_process_queue_spec h w) as H.
    destruct (queue w) as [|job_id rest]; [by rewrite H|].
    destruct H as (r & w' & -> & _ & _ & _ & _ & H). simpl.
    destruct (decide _) as [Hfull|Hfree].
    + destruct H as [_ ->]. by destruct w.
    + destruct H as [(_ & _ & ->)|(_ & _ & ->)]; [done|].
      rewrite map_size_insert. destruct (_ !! _); simpl; lia.
  - rewrite _execute_job_active_jobs.
    destruct (_execute_job env job_id w).1; [|
      |done]; rewrite map_size_delete; destruct (_ !! _); simpl; lia.
  - assert (unchanged active_jobs (Main.approve_job job_id approved comment)) as H.
    { unfold Main.approve_job, approve_job, reject_job. tables env_frame_active_jobs. }
    by rewrite (H w).
  - by rewrite (unchanged_happens _ env_frame_active_jobs e w).
Qed.

(** X6.  Never more than [max_concurrent] jobs are in flight: whatever
    the application does, in any order (submissions, turns of the
    admission loop, supervisors, approvals and rejections, events of the
    world around it), the table of the jobs in flight, once within the
    cap, stays within it. *)
Theorem jobs_in_flight_stay_within_the_cap ops w :
  (size (active_jobs w) ≤ max_concurrent)%nat →
  (size (active_jobs (operate_all ops w)) ≤ max_concurrent)%nat.
Proof.
  revert w. induction ops as [|op ops IH]; intros w Hcap; [done|].
  apply (IH (operate op w)), active_jobs_operate, Hcap.
Qed.

Lemma jobs_in_flight_stay_within_the_cap_witness :
  (size (active_jobs (operate_all four_submitted_and_admitted empty_world)) ≤ max_concurrent)%nat.
Proof.
  apply (jobs_in_flight_stay_within_the_cap four_submitted_and_admitted empty_world).
  vm_compute. lia.
Defined.

(** X7.  The supervisor of a job gives its slot back when it returns,
    with a result or with an exception, and it gives back its own slot
    only; as long as it is suspended the table of the jobs in flight is
    as it was. *)
Theorem supervisor_frees_its_slot env job_id w :
  active_jobs (_execute_job env job_id w).2
  = match (_execute_job env job_id w).1 with
    | Blocked => active_jobs w
    | _ => delete job_id (active_jobs w)
    end.
Proof. apply _execute_job_active_jobs. Qed.

(** * Table [jobs] *)

Lemma writes_unchanged {A} (c : M A) : unchanged jobs c → writes_jobs c.
Proof. intros H w. by rewrite (H w). Qed.

Lemma writes_bind {A C} (c : M A) (k : A → M C) :
  writes_jobs c → (∀ a, writes_jobs (k a)) → writes_jobs (bind c k).
Proof.
  intros Hc Hk w. unfold bind. specialize (Hc w).
  destruct (c w) as [[a|e|] w1]; simpl in *; [|done..].
  etrans; [done|]. apply Hk.
Qed.

Lemma writes_try_except {A} (c : M A) (h : Exn → M A) :
  writes_jobs c → (∀ e, writes_jobs (h e)) → writes_jobs (try_except c h).
Proof.
  intros Hc Hh w. unfold try_except. specialize (Hc w).
  destruct (c w) as [[a|e|] w1]; simpl in *; [done| |done].
  etrans; [done|]. apply Hh.
Qed.

Lemma writes_try_finally {A} (c : M A) (fin : M unit) :
  writes_jobs c → unchanged jobs fin → writes_jobs (try_finally c fin).
Proof.
  intros Hc Hf w. unfold try_finally. specialize (Hc w).
  destruct (c w) as [[a|e|] w1]; simpl in *; [| |done];
    specialize (Hf w1); destruct (fin w1) as [[[]|e'|] w2]; simpl in *; by rewrite Hf.
Qed.

Lemma writes__update_job_status job_id status error_message :
  writes_jobs (_update_job_status job_id status error_message).
Proof.
  intros w. destruct (jobs w !! job_id) as [job|] eqn:Hj.
  - rewrite (_update_job_status_run _ _ _ _ _ Hj). destruct w; simpl in *.
    apply rtc_once. by constructor.
  - by rewrite (_update_job_status_missing _ _ _ _ Hj).
Qed.

Lemma writes_read_commit {C} job_id (f : Job → Job) (k : M C) :
  (∀ m job, m !! job_id = Some job → jobs_write m (<[job_id := f job]> m)) →
  writes_jobs k →
  writes_jobs (job <- scalar_one job_id;; commit job_id (f job);; k).
Proof.
  intros Hf Hk w. unfold bind at 1.
  destruct (jobs w !! job_id) as [job|] eqn:Hj.
  - rewrite (scalar_one_run _ _ _ Hj). unfold bind, commit, modify. cbv beta iota.
    etrans; [|apply Hk]. apply rtc_once. destruct w; simpl in *. by apply Hf.
  - unfold scalar_one, bind, gets. by rewrite Hj.
Qed.

Lemma writes__execute_job env job_id : writes_jobs (_execute_job env job_id).
Proof.
  pose proof (λ A c, writes_unchanged (A := A) c) as Hu.
  assert (∀ script, writes_jobs (happen script)) as Hhappen.
  { intros script. apply Hu, (unchanged_happen _ env_frame_jobs). }
  assert (∀ container_id script,
            writes_jobs (_wait_for_container_with_events job_id container_id script)) as Hwait.
  { intros cid script. apply Hu, (unchanged__wait_for_container_with_events _ env_frame_jobs). }
  unfold _execute_job.
  apply writes_bind; [by apply Hu; unchanged|]. intros _.
  apply writes_try_finally; [|by unfold _execute_job_finally; unchanged].
  apply writes_try_except.
  2:{ intros e. unfold _execute_job_except.
      apply writes_bind; [by apply Hu; unchanged|]. intros _.
      apply writes__update_job_status. }
  unfold _execute_job_try, _execute_job_step4, _execute_job_step6, _execute_job_step7.
  apply writes_bind; [by apply Hu; unfold scalar_one; unchanged|]. intros job.
  apply writes_bind; [by apply Hu; unfold create_workspace_volume; unchanged|]. intros v.
  apply writes_bind; [apply writes__update_job_status|]. intros _.
  apply writes_bind; [by apply Hu; unfold spawn_builder; unchanged|]. intros b.
  apply writes_read_commit; [by constructor|].
  apply writes_bind; [apply Hwait|]. intros r.
  apply writes_bind; [apply Hhappen|]. intros _.
  destruct (negb _); [apply writes__update_job_status|].
  apply writes_bind; [apply writes__update_job_status|]. intros _.
  apply writes_bind; [by apply Hu; unfold spawn_checker; unchanged|]. intros c.
  apply writes_read_commit; [by constructor|].
  apply writes_bind; [apply Hwait|]. intros r'.
  apply writes_bind; [apply Hhappen|]. intros _.
  apply writes__update_job_status.
Qed.

Lemma writes_cleanup job_id (job : Job) :
  unchanged jobs (stop_if_set (builder_container_id job);;
                  stop_if_set (checker_container_id job);;
                  cleanup_volume ("icarus_workspace_" ++ job_id)).
Proof. unfold stop_if_set, stop_container, cleanup_volume. unchanged. Qed.

Lemma writes_operate op w : rtc jobs_write (jobs w) (jobs (operate op w)).
Proof.
  pose proof (λ A c, writes_unchanged (A := A) c) as Hu.
  destruct op as [uuid task path|h|env job_id|job_id approved comment|e]; simpl.
  - destruct w; simpl. apply rtc_once. constructor.
  - assert (unchanged jobs (_process_queue h)) as H.
    { unfold _process_queue. tables env_frame_jobs. }
    by rewrite (H w).
  - apply writes__execute_job.
  - revert w. change (writes_jobs (Main.approve_job job_id approved comment)).
    unfold Main.approve_job, approve_job, reject_job.
    apply writes_try_except; [|by intros; apply Hu; unchanged].
    destruct approved.
    + apply writes_bind; [|by intros; apply Hu; unchanged].
      apply writes_bind; [apply writes__update_job_status|]. intros _.
      apply writes_bind; [by apply Hu; unfold scalar_one; unchanged|]. intros job.
      apply writes_bind; [by apply Hu; unfold stop_if_set, stop_container; unchanged|].
      intros _.
      apply writes_bind; [by apply Hu; unfold stop_if_set, stop_container; unchanged|].
      intros _.
      apply writes_bind; [by apply Hu; unfold cleanup_volume; unchanged|]. intros _.
      apply writes__update_job_status.
    + apply writes_bind; [|by intros; apply Hu; unchanged].
      apply writes_bind; [apply writes__update_job_status|]. intros _.
      apply writes_bind; [by apply Hu; unfold scalar_one; unchanged|]. intros job.
      apply writes_bind; [by apply Hu; unfold stop_if_set, stop_container; unchanged|].
      intros _.
      apply writes_bind; [by apply Hu; unfold stop_if_set, stop_container; unchanged|].
      intros _.
      by apply Hu; unfold cleanup_volume; unchanged.
  - by rewrite (unchanged_happens _ env_frame_jobs e w).
Qed.

(** X8.  Table [jobs] is written in three ways only, whatever the
    application does and in any order: [submit_job] stores a new pending
    row with no completion time, no container and no message; a status
    update rewrites the status of a row that is there (with the message
    and the completion time that go with it); and a supervisor records
    the id of the Builder or of the Checker in the row of its job.
    Nothing else changes a row, and no row is ever deleted. *)
Theorem table_jobs_is_only_written_by_these ops w :
  rtc jobs_write (jobs w) (jobs (operate_all ops w))
  ∧ ∀ job_id, is_Some (jobs w !! job_id) → is_Some (jobs (operate_all ops w) !! job_id).
Proof.
  assert (rtc jobs_write (jobs w) (jobs (operate_all ops w))) as H.
  { revert w. induction ops as [|op ops IH]; intros w; [done|].
    etrans; [apply (writes_operate op)|]. apply IH. }
  split; [done|]. intros j. induction H as [|m1 m2 m3 Hw _ IH]; [done|].
  intros Hj. apply IH.
  destruct Hw as [m j' ???|m j' ?????|m j' ???|m j' ???];
    (destruct (decide (j = j')) as [->|Hne];
     [rewrite lookup_insert_eq; eauto|by rewrite lookup_insert_ne]).
Qed.

Lemma jobs_write_well_formed m m' :
  jobs_write m m' → jobs_well_formed m → jobs_well_formed m'.
Proof.
  intros Hw Hm j job.
  destruct Hw as [m j' task path t|m j' job' s msg t Hj'|m j' job' c Hj'|m j' job' c Hj'];
    (destruct (decide (j = j')) as [->|Hne];
     [rewrite lookup_insert_eq; intros [= <-]|rewrite lookup_insert_ne by done; apply Hm]).
  - done.
  - destruct (Hm _ _ Hj') as [Hid Hterm]. unfold updated.
    destruct (Py.truthy msg), (is_terminal s) eqn:Hs; simpl; rewrite ?Hs; eauto.
    all: split; [done|]; intros [=].
  - apply (Hm _ _ Hj').
  - apply (Hm _ _ Hj').
Qed.

(** X9.  Two invariants of table [jobs].  If every row is stored under
    its own [job_id], and every row whose status is completed, failed or
    rejected has a completion time, then this is still so after anything
    the application does, in any order. *)
Theorem terminal_jobs_have_a_completion_time ops w :
  jobs_well_formed (jobs w) → jobs_well_formed (jobs (operate_all ops w)).
Proof.
  revert w. induction ops as [|op ops IH]; intros w Hw; [done|].
  apply (IH (operate op w)).
  induction (writes_operate op w) as [|m1 m2 m3 H _ IH']; [done|].
  by apply IH', (jobs_write_well_formed m1).
Qed.

Lemma terminal_jobs_have_a_completion_time_witness :
  jobs_well_formed (jobs (operate_all a_day_of_work empty_world)).
Proof.
  apply (terminal_jobs_have_a_completion_time a_day_of_work empty_world).
  intros j job. simpl. rewrite lookup_empty. discriminate.
Defined.
